(** * FileWorker: an HTTP front for an object-storage bucket

    Shallow embedding of [functions/[filename].ts] (the four object
    handlers and the default handler) and of [functions/[[path]].ts]
    (the catch-all GET route), with the properties of the specification
    stated against them.

    Conventions of the embedding:
    - a JavaScript string is the list of its UTF-16 code units;
    - an [async] handler is a finite tree of [await]ed external calls
      (type [prog]); a rejected promise that is not caught becomes [Throw];
    - [undefined] fields of the storage reply are [None];
    - the platform classes the handlers use ([Headers], [Response], [URL],
      [Date]) are modelled only as far as the handlers use them. *)

From stdpp Require Import base option list numbers strings gmap fin_maps sorting.


Local Open Scope N_scope.

(** ** JavaScript strings *)

Module JS.

(** A string value: its sequence of 16-bit code units. *)
Abbreviation jsstring := (list N).

(** The code units of an ASCII literal. *)
Definition lit (s : string) : jsstring :=
  (λ a, Ascii.N_of_ascii a) <$> String.list_ascii_of_string s.

Definition percent : N := 37.
Definition slash : N := 47.

(** [String.prototype.startsWith] and [endsWith] (position omitted, as in
    every call of the source). *)
Fixpoint startsWith (s prefix : jsstring) : bool :=
  match prefix, s with
  | [], _ => true
  | p :: prefix', c :: s' => (c =? p) && startsWith s' prefix'
  | _ :: _, [] => false
  end.

Definition endsWith (s suffix : jsstring) : bool :=
  startsWith (reverse s) (reverse suffix).

(** [String.prototype.slice(start, end)]: a negative index counts from the
    end, both are clamped to the string. *)
Definition slice (s : jsstring) (start stop : Z) : jsstring :=
  let len := Z.of_nat (length s) in
  let from := if (start <? 0)%Z then Z.max (len + start) 0 else Z.min start len in
  let to := if (stop <? 0)%Z then Z.max (len + stop) 0 else Z.min stop len in
  take (Z.to_nat (to - from)) (drop (Z.to_nat from) s).

(** [s.replace(/^\/+/, "")]: the leading run of slashes is removed. *)
Fixpoint stripLeadingSlashes (s : jsstring) : jsstring :=
  match s with
  | c :: s' => if c =? slash then stripLeadingSlashes s' else s
  | [] => []
  end.

(** ASCII lower-casing of a header name (byte-lowercase of the Fetch
    standard). *)
Definition lowerUnit (c : N) : N :=
  if (65 <=? c) && (c <=? 90) then c + 32 else c.

Definition toLowerCase (s : jsstring) : jsstring := lowerUnit <$> s.

(** *** decodeURIComponent

    The [Decode] operation of ECMA-262 with an empty set of preserved
    escapes.  [None] stands for the [URIError] exception. *)

Definition hexDigit (c : N) : option N :=
  if (48 <=? c) && (c <=? 57) then Some (c - 48)
  else if (65 <=? c) && (c <=? 70) then Some (c - 55)
  else if (97 <=? c) && (c <=? 102) then Some (c - 87)
  else None.

(** One escape [%XY] at the head of [s]: its octet and the rest. *)
Definition escapeOctet (s : jsstring) : option (N * jsstring) :=
  match s with
  | p :: h :: l :: rest =>
      if p =? percent then
        hi ← hexDigit h; lo ← hexDigit l; Some (16 * hi + lo, rest)
      else None
  | _ => None
  end.

(** [n] further escapes, the continuation octets of a multi-byte sequence. *)
Fixpoint continuationOctets (n : nat) (s : jsstring) : option (list N * jsstring) :=
  match n with
  | O => Some ([], s)
  | S n' =>
      '(B, rest) ← escapeOctet s;
      '(Bs, rest') ← continuationOctets n' rest;
      Some (B :: Bs, rest')
  end.

(** Number of leading 1 bits of an octet (5 stands for "more than 4"). *)
Definition leadingOnes (B : N) : nat :=
  if B <? 128 then 0
  else if B <? 192 then 1
  else if B <? 224 then 2
  else if B <? 240 then 3
  else if B <? 248 then 4
  else 5.

Definition isContinuation (B : N) : bool := (128 <=? B) && (B <? 192).

(** The code point a list of octets encodes, when the list is a valid
    UTF-8 encoding (shortest form, no surrogate, at most U+10FFFF). *)
Definition utf8CodePoint (octets : list N) : option N :=
  match octets with
  | [b0; b1] =>
      let v := (b0 - 192) * 64 + (b1 - 128) in
      if isContinuation b1 && (128 <=? v) then Some v else None
  | [b0; b1; b2] =>
      let v := (b0 - 224) * 4096 + (b1 - 128) * 64 + (b2 - 128) in
      if isContinuation b1 && isContinuation b2 && (2048 <=? v)
         && negb ((55296 <=? v) && (v <=? 57343))
      then Some v else None
  | [b0; b1; b2; b3] =>
      let v := (b0 - 240) * 262144 + (b1 - 128) * 4096 + (b2 - 128) * 64 + (b3 - 128) in
      if isContinuation b1 && isContinuation b2 && isContinuation b3
         && (65536 <=? v) && (v <=? 1114111)
      then Some v else None
  | _ => None
  end.

Definition UTF16EncodeCodePoint (cp : N) : jsstring :=
  if cp <=? 65535 then [cp]
  else [(cp - 65536) / 1024 + 55296; (cp - 65536) mod 1024 + 56320].

(** The loop of [Decode]; every round consumes at least one code unit, so
    [length s] rounds are enough (see [Decode_fuel]). *)
Fixpoint Decode (fuel : nat) (s : jsstring) : option jsstring :=
  match s with
  | [] => Some []
  | C :: rest =>
      match fuel with
      | O => None
      | S fuel' =>
          if C =? percent then
            '(B, rest1) ← escapeOctet s;
            match leadingOnes B with
            | 0%nat => R ← Decode fuel' rest1; Some (B :: R)
            | 1%nat => None
            | S (S (S (S (S _)))) => None
            | S n' =>
                '(Bs, rest2) ← continuationOctets n' rest1;
                V ← utf8CodePoint (B :: Bs);
                R ← Decode fuel' rest2;
                Some (UTF16EncodeCodePoint V ++ R)
            end
          else R ← Decode fuel' rest; Some (C :: R)
      end
  end.

Definition decodeURIComponent (s : jsstring) : option jsstring :=
  Decode (length s) s.

End JS.

Import JS.

(** ** Platform values the handlers touch *)

(** Byte content of an object or of a request body; a stream is modelled
    by the bytes it delivers. *)
Abbreviation Bytes := (list N).

(** A [Date], as milliseconds since the epoch. *)
Abbreviation Date := Z.

(** Exceptions a handler can end with: the two the language raises in this
    code, and a failure reported by the storage client or by [fetch]. *)
Inductive Error : Type :=
| URIError
| TypeError
| ServiceError (name : jsstring).

(** A plain object with string values ([Record<string, string>]): its
    entries in property order. *)
Module Object.

Abbreviation t := (list (jsstring * jsstring)).

(** [o[k]]; [None] is [undefined]. *)
Fixpoint get (o : t) (k : jsstring) : option jsstring :=
  match o with
  | [] => None
  | (k', v) :: o' => if bool_decide (k' = k) then Some v else get o' k
  end.

(** [o[k] = v]: an existing property keeps its place. *)
Fixpoint put (o : t) (k v : jsstring) : t :=
  match o with
  | [] => [(k, v)]
  | (k', v') :: o' =>
      if bool_decide (k' = k) then (k', v) :: o' else (k', v') :: put o' k v
  end.

(** [Object.entries(o)]; it throws [TypeError] on [undefined]. *)
Definition entries (o : option t) : option t := o.

(** [Object.fromEntries(l)]. *)
Definition fromEntries (l : list (jsstring * jsstring)) : t :=
  foldl (λ o kv, put o kv.1 kv.2) [] l.

End Object.

(** The [Headers] class of the Fetch standard: a map from lower-cased names
    to values.  [set] removes the whitespace around the value and refuses,
    with a [TypeError], a name that is not a token and a value that is not a
    byte string or holds NUL, line feed or carriage return. *)
Module Headers.

Abbreviation t := (gmap jsstring jsstring).

Definition new : t := ∅.

(** HTTP whitespace: tab, line feed, carriage return, space. *)
Definition isWhitespace (c : N) : bool :=
  (c =? 9) || (c =? 10) || (c =? 13) || (c =? 32).

Fixpoint stripStart (s : jsstring) : jsstring :=
  match s with
  | c :: s' => if isWhitespace c then stripStart s' else s
  | [] => []
  end.

(** A value as [set] stores it: without whitespace at either end. *)
Definition normalize (value : jsstring) : jsstring :=
  reverse (stripStart (reverse (stripStart value))).

(** The characters of a header name: letters, digits and
    [!#$%&'*+-.^_`|~]. *)
Definition isTokenChar (c : N) : bool :=
  ((48 <=? c) && (c <=? 57)) || ((65 <=? c) && (c <=? 90))
  || ((97 <=? c) && (c <=? 122))
  || existsb (N.eqb c) [33; 35; 36; 37; 38; 39; 42; 43; 45; 46; 94; 95; 96; 124; 126].

Definition validName (name : jsstring) : bool :=
  match name with
  | [] => false
  | _ => forallb isTokenChar name
  end.

(** A normalised value is accepted when no code unit is above 255 and none
    is NUL, line feed or carriage return. *)
Definition validValue (value : jsstring) : bool :=
  forallb (λ c, (c <=? 255) && negb ((c =? 0) || (c =? 10) || (c =? 13))) value.

(** [headers.set(name, value)]; [None] is the [TypeError]. *)
Definition set (h : t) (name value : jsstring) : option t :=
  if validName name && validValue (normalize value)
  then Some (<[toLowerCase name := normalize value]> h)
  else None.

Definition get (h : t) (name : jsstring) : option jsstring :=
  h !! toLowerCase name.

(** Code-unit order on names, the order [entries()] iterates in. *)
Fixpoint lexleb (a b : jsstring) : bool :=
  match a, b with
  | [], _ => true
  | _ :: _, [] => false
  | x :: a', y :: b' => (x <? y) || ((x =? y) && lexleb a' b')
  end.

Definition nameLe (a b : jsstring * jsstring) : Prop := lexleb a.1 b.1.

#[global] Instance nameLe_dec a b : Decision (nameLe a b).
Proof. unfold nameLe. apply _. Defined.

Definition entries (h : t) : list (jsstring * jsstring) :=
  merge_sort nameLe (map_to_list h).

End Headers.

Module URL.
(** A parsed URL; only [pathname] is read. *)
Record t := make { pathname : jsstring }.
End URL.

Module Request.
(** The inbound request, with its URL already parsed. *)
Record t := make { url : URL.t; headers : Headers.t; body : Bytes }.
End Request.

Inductive BodyInit : Type :=
| Text (s : jsstring)
| Stream (b : Bytes).

Module Response.
Record t := make { status : N; body : BodyInit; headers : Headers.t }.
End Response.

(** The bindings of the deployment ([utils/Env]): the bucket name and the
    settings [auth] and [createS3Client] read. *)
Record Env := { BUCKET : jsstring; bindings : Object.t }.

Record Params := { filename : jsstring }.

Record EventContext := { request : Request.t; env : Env; params : Params }.

(** ** Storage commands *)

Module GetObjectCommand.
Record t := make { Bucket : jsstring; Key : jsstring }.
End GetObjectCommand.

Module GetObjectCommandOutput.
Record t := make {
  Body : option Bytes;
  Metadata : option Object.t;
  ContentType : option jsstring;
  ContentLength : option N;
  LastModified : option Date;
  ETag : option jsstring }.
End GetObjectCommandOutput.

Module CopyObjectCommand.
Record t := make {
  Bucket : jsstring;
  CopySource : jsstring;
  Key : jsstring;
  MetadataDirective : jsstring;
  Metadata : Object.t }.
End CopyObjectCommand.

Module DeleteObjectCommand.
Record t := make { Bucket : jsstring; Key : jsstring }.
End DeleteObjectCommand.

Module Upload.
Record t := make {
  Bucket : jsstring;
  Key : jsstring;
  Body : Bytes;
  Metadata : Object.t;
  queueSize : N;
  partSize : N;
  leavePartsOnError : bool }.
End Upload.

(** What [getSignedUrl] returns: a URL that stands for the signed command. *)
Record SignedUrl := { signed : DeleteObjectCommand.t; expiresIn : N }.

Record FetchResponse := { fetchStatus : N }.

(** ** Asynchronous programs *)

(** The external calls a handler awaits, indexed by the type of the value
    the promise resolves to. *)
Inductive call : Type → Type :=
| s3_send_GetObject (command : GetObjectCommand.t) : call GetObjectCommandOutput.t
| s3_send_CopyObject (command : CopyObjectCommand.t) : call unit
| Upload_done (upload : Upload.t) : call unit
| getSignedUrl (command : DeleteObjectCommand.t) (expires : N) : call SignedUrl
| fetch (url : SignedUrl) (method : jsstring) : call FetchResponse.

Inductive settled (X : Type) : Type :=
| Fulfilled (x : X)
| Rejected (e : Error).
Arguments Fulfilled {X} x.
Arguments Rejected {X} e.

Inductive prog (A : Type) : Type :=
| Return (a : A)
| Throw (e : Error)
| Await {X : Type} (c : call X) (k : settled X → prog A).
Arguments Return {A} a.
Arguments Throw {A} e.
Arguments Await {A X} c k.

Fixpoint bind {A B : Type} (p : prog A) (f : A → prog B) : prog B :=
  match p with
  | Return a => f a
  | Throw e => Throw e
  | Await c k => Await c (λ r, bind (k r) f)
  end.

#[global] Instance prog_bind : MBind prog := λ A B f p, bind p f.

(** [await c] outside any [try]: a rejection is thrown on. *)
Definition await {X : Type} (c : call X) : prog X :=
  Await c (λ r, match r with Fulfilled x => Return x | Rejected e => Throw e end).

(** A pure step that raises [e] where the model has [None]. *)
Definition orThrow {A : Type} (e : Error) (o : option A) : prog A :=
  match o with Some a => Return a | None => Throw e end.

(** Conversion of a possibly [undefined] string to a header value. *)
Definition toString (o : option jsstring) : jsstring :=
  default (lit "undefined") o.

(** [a || b] on a string that may be [null]: [null] and the empty string
    are falsy. *)
Definition orElse (a : option jsstring) (b : jsstring) : jsstring :=
  match a with
  | Some (c :: s) => c :: s
  | _ => b
  end.

(** ** Running a program against an environment *)

Inductive outcome (A : Type) : Type :=
| Returned (a : A)
| Thrown (e : Error).
Arguments Returned {A} a.
Arguments Thrown {A} e.

(** A call that was issued, for traces. *)
Inductive issued : Type :=
| Issued {X : Type} (c : call X).

(** An environment answers every call and moves to its next state. *)
Definition responder (W : Type) : Type := ∀ X : Type, call X → W → settled X * W.

Fixpoint run {W A : Type} (R : responder W) (p : prog A) (w : W)
  : outcome A * W * list issued :=
  match p with
  | Return a => (Returned a, w, [])
  | Throw e => (Thrown e, w, [])
  | Await c k =>
      let '(r, w1) := R _ c w in
      let '(o, w2, t) := run R (k r) w1 in
      (o, w2, Issued c :: t)
  end.

(** ** functions/[filename].ts *)

Module FilenameRoute.

(** The generic content type, meaning "unknown". *)
Definition octetStream : jsstring := lit "application/octet-stream".

Definition notFound : Response.t :=
  Response.make 404 (Text (lit "Not found")) Headers.new.

Definition unauthorized : Response.t :=
  Response.make 401 (Text (lit "Unauthorized")) Headers.new.

Definition ok : Response.t :=
  Response.make 200 (Text (lit "OK")) Headers.new.

(** Lines 22-23: the key the read handler asks storage for. *)
Definition objectKey (filename : jsstring) : option jsstring :=
  key ← decodeURIComponent filename;
  Some (if endsWith key (lit "/") then slice key 0 (-1) else key).

(** Lines 81-87 and 113-119: the request headers named [x-store-...]. *)
Definition x_store_headers (request : Request.t) : list (jsstring * jsstring) :=
  let headers : Headers.t := Request.headers request in
  filter (λ kv, startsWith kv.1 (lit "x-store-")) (Headers.entries headers).

Section Handlers.

(** [auth] of [utils/utils], the credential predicate. *)
Context (auth : Env → Request.t → bool).
(** [mime.getType] of the [mime] package: the type registered for the
    extension of a path, [None] for [null]. *)
Context (mime_getType : jsstring → option jsstring).
(** [Date.prototype.toUTCString] and [Number.prototype.toString]. *)
Context (Date_toUTCString : Date → jsstring).
Context (Number_toString : N → jsstring).

(** Lines 43-46. *)
Definition contentType (key : jsstring) (response : GetObjectCommandOutput.t)
  : option jsstring :=
  if negb (bool_decide (GetObjectCommandOutput.ContentType response = Some octetStream))
  then GetObjectCommandOutput.ContentType response
  else Some (orElse (mime_getType key) octetStream).

(** Lines 38-40: the metadata entries set as headers one after the other;
    [None] when one of them is refused. *)
Definition metadataHeaders (entries : Object.t) : option Headers.t :=
  foldl (λ acc kv, h ← acc; Headers.set h kv.1 kv.2) (Some Headers.new) entries.

(** Line 65: the value of the disposition header. *)
Definition disposition (key : jsstring) : jsstring :=
  lit "inline; filename=" ++ [34] ++ key ++ [34].

(** Lines 37-69: what the read handler does with the storage reply. *)
Definition respond (context : EventContext) (key : jsstring)
    (response : GetObjectCommandOutput.t) : prog Response.t :=
  entries ← orThrow TypeError (Object.entries (GetObjectCommandOutput.Metadata response));
  headers ← orThrow TypeError (metadataHeaders entries);
  headers ← orThrow TypeError
    (Headers.set headers (lit "content-type") (toString (contentType key response)));
  headers ←
    (if bool_decide (Object.get entries (lit "x-store-type") = Some (lit "text"))
     then orThrow TypeError
            (Headers.set headers (lit "content-type") (lit "text/plain;charset=utf-8"))
     else Return headers);
  size ← orThrow TypeError (GetObjectCommandOutput.ContentLength response);
  headers ← orThrow TypeError
    (Headers.set headers (lit "content-length") (Number_toString size));
  modified ← orThrow TypeError (GetObjectCommandOutput.LastModified response);
  headers ← orThrow TypeError
    (Headers.set headers (lit "last-modified") (Date_toUTCString modified));
  headers ← orThrow TypeError
    (Headers.set headers (lit "etag") (toString (GetObjectCommandOutput.ETag response)));
  if negb (bool_decide (Headers.get headers (lit "x-store-visibility") = Some (lit "public")))
     && negb (auth (env context) (request context))
  then Return notFound
  else
    headers ← orThrow TypeError
      (Headers.set headers (lit "content-disposition") (disposition key));
    body ← orThrow TypeError (GetObjectCommandOutput.Body response);
    Return (Response.make 200 (Stream body) headers).

(** The headers at the access check of line 60, for a reply that has its
    metadata [md], its length and its date; [None] when a [set] of lines
    38-57 is refused. *)
Definition headersAtGate (key : jsstring) (response : GetObjectCommandOutput.t)
    (md : Object.t) (size : N) (modified : Date) : option Headers.t :=
  h ← metadataHeaders md;
  h ← Headers.set h (lit "content-type") (toString (contentType key response));
  h ← (if bool_decide (Object.get md (lit "x-store-type") = Some (lit "text"))
       then Headers.set h (lit "content-type") (lit "text/plain;charset=utf-8")
       else Some h);
  h ← Headers.set h (lit "content-length") (Number_toString size);
  h ← Headers.set h (lit "last-modified") (Date_toUTCString modified);
  Headers.set h (lit "etag") (toString (GetObjectCommandOutput.ETag response)).

Definition onRequestGet (context : EventContext) : prog Response.t :=
  key ← orThrow URIError (objectKey (filename (params context)));
  let command := GetObjectCommand.make (BUCKET (env context)) key in
  Await (s3_send_GetObject command) (λ r,
    match r with
    | Rejected e => Return notFound
    | Fulfilled response => respond context key response
    end).

Definition onRequestPut (context : EventContext) : prog Response.t :=
  if negb (auth (env context) (request context)) then Return unauthorized
  else
    let x_store_headers := x_store_headers (request context) in
    Key ← orThrow URIError (decodeURIComponent (filename (params context)));
    let parallelUploads3 :=
      Upload.make (BUCKET (env context)) Key (Request.body (request context))
        (Object.fromEntries x_store_headers) 4 (1024 * 1024 * 5) false in
    _ ← await (Upload_done parallelUploads3);
    Return ok.

Definition onRequestPatch (context : EventContext) : prog Response.t :=
  if negb (auth (env context) (request context)) then Return unauthorized
  else
    let x_store_headers := x_store_headers (request context) in
    source ← orThrow URIError (decodeURIComponent (filename (params context)));
    Key ← orThrow URIError (decodeURIComponent (filename (params context)));
    let command :=
      CopyObjectCommand.make (BUCKET (env context))
        (BUCKET (env context) ++ lit "/" ++ source) Key (lit "REPLACE")
        (Object.fromEntries x_store_headers) in
    _ ← await (s3_send_CopyObject command);
    Return ok.

Definition onRequestDelete (context : EventContext) : prog Response.t :=
  if negb (auth (env context) (request context)) then Return unauthorized
  else
    Key ← orThrow URIError (decodeURIComponent (filename (params context)));
    let command := DeleteObjectCommand.make (BUCKET (env context)) Key in
    url ← await (getSignedUrl command 3600);
    _ ← await (fetch url (lit "DELETE"));
    Return ok.

Definition onRequest (context : EventContext) : prog Response.t :=
  Return (Response.make 405 (Text (lit "Method not allowed")) Headers.new).

End Handlers.

End FilenameRoute.

(** ** functions/[[path]].ts *)

Module PathRoute.

Section Handler.

Context (auth : Env → Request.t → bool).
Context (mime_getType : jsstring → option jsstring).
Context (Date_toUTCString : Date → jsstring).
Context (Number_toString : N → jsstring).

Definition fileHandler : EventContext → prog Response.t :=
  FilenameRoute.onRequestGet auth mime_getType Date_toUTCString Number_toString.

Definition onRequestGet (context : EventContext) : prog Response.t :=
  let url := Request.url (request context) in
  path ← orThrow URIError
    (decodeURIComponent (stripLeadingSlashes (URL.pathname url)));
  let context :=
    {| request := request context; env := env context;
       params := {| filename := path |} |} in
  fileHandler context.

End Handler.

End PathRoute.

(** ** Observing a program *)

(** The key a call addresses. *)
Definition calledKey (i : issued) : jsstring :=
  match i with
  | Issued c =>
      match c with
      | s3_send_GetObject command => GetObjectCommand.Key command
      | s3_send_CopyObject command => CopyObjectCommand.Key command
      | Upload_done upload => Upload.Key upload
      | getSignedUrl command _ => DeleteObjectCommand.Key command
      | fetch url _ => DeleteObjectCommand.Key (signed url)
      end
  end.

(** The first call a program issues, if it issues any. *)
Definition firstCall {A : Type} (p : prog A) : option issued :=
  match p with
  | Await c _ => Some (Issued c)
  | _ => None
  end.

(** Metadata as the storage client delivers it: an object whose property
    names are distinct and in lower case (they are read off the header
    names of the storage reply). *)
Definition delivered (md : Object.t) : Prop :=
  NoDup md.*1 ∧ Forall (λ k, toLowerCase k = k) md.*1.

#[global] Instance delivered_dec (md : Object.t) : Decision (delivered md).
Proof. unfold delivered. apply _. Defined.

(** The header names the read handler sets itself (lines 48-65); metadata
    under one of these names is overwritten. *)
Definition nativeHeaders : list jsstring :=
  [lit "content-type"; lit "content-length"; lit "last-modified"; lit "etag";
   lit "content-disposition"].

(** A value [headers.set] does not refuse. *)
Definition acceptable (value : jsstring) : Prop :=
  Headers.validValue (Headers.normalize value) = true.

(** Entries [headers.set] does not refuse. *)
Definition acceptableEntries (o : Object.t) : Prop :=
  Forall (λ kv, Headers.validName kv.1 = true ∧ acceptable kv.2) o.

#[global] Instance acceptableEntries_dec (o : Object.t) : Decision (acceptableEntries o).
Proof. unfold acceptableEntries, acceptable. apply _. Defined.

(** Headers as an object of the [Headers] class holds them: names that are
    tokens in lower case, values normalised and accepted. *)
Definition wellFormed (h : Headers.t) : Prop :=
  map_Forall (λ k v, toLowerCase k = k ∧ Headers.validName k = true
                     ∧ Headers.normalize v = v ∧ Headers.validValue v = true) h.

#[global] Instance wellFormed_dec (h : Headers.t) : Decision (wellFormed h).
Proof. unfold wellFormed. apply _. Defined.

(** An environment without state that answers from a fixed script. *)
Record Script := {
  onGetObject : GetObjectCommand.t → settled GetObjectCommandOutput.t;
  onCopyObject : CopyObjectCommand.t → settled unit;
  onUpload : Upload.t → settled unit;
  onSign : DeleteObjectCommand.t → N → settled SignedUrl;
  onFetch : SignedUrl → jsstring → settled FetchResponse }.

Definition scripted (s : Script) : responder unit :=
  λ X c,
    match c in call X return unit → settled X * unit with
    | s3_send_GetObject command => λ w, (onGetObject s command, w)
    | s3_send_CopyObject command => λ w, (onCopyObject s command, w)
    | Upload_done upload => λ w, (onUpload s upload, w)
    | getSignedUrl command expires => λ w, (onSign s command expires, w)
    | fetch url method => λ w, (onFetch s url method, w)
    end.

(** ** A reference bucket *)

(** Modelled from the spec: the storage capability (sections 3 and 6), which
    is a service outside the repository.  Its state holds the objects by
    bucket name and key, each with its content and its metadata; a write
    creates or replaces an object, a copy with the [REPLACE] directive
    keeps the content of its source and takes the metadata of the command,
    a copy or a read of a missing object is rejected, a delete removes the
    object.  A copy names its source as [bucket/key], read literally. *)

Module Store.

Record StoredObject := { content : Bytes; metadata : Object.t }.

Abbreviation t := (gmap (jsstring * jsstring) StoredObject).

Definition noSuchKey : Error := ServiceError (lit "NoSuchKey").

(** [bucket/key], split at the first slash. *)
Fixpoint splitSource (src : jsstring) : option (jsstring * jsstring) :=
  match src with
  | [] => None
  | c :: src' =>
      if c =? slash then Some ([], src')
      else '(b, k) ← splitSource src'; Some (c :: b, k)
  end.

Section Service.

(** Attributes the service itself assigns. *)
Context (now : Date) (etagOf : Bytes → jsstring).

Definition describe (o : StoredObject) : GetObjectCommandOutput.t :=
  GetObjectCommandOutput.make (Some (content o)) (Some (metadata o))
    (Some FilenameRoute.octetStream) (Some (N.of_nat (length (content o))))
    (Some now) (Some (etagOf (content o))).

Definition getObject (command : GetObjectCommand.t) (σ : t)
  : settled GetObjectCommandOutput.t * t :=
  match σ !! (GetObjectCommand.Bucket command, GetObjectCommand.Key command) with
  | Some o => (Fulfilled (describe o), σ)
  | None => (Rejected noSuchKey, σ)
  end.

Definition upload (u : Upload.t) (σ : t) : settled unit * t :=
  (Fulfilled (),
   <[(Upload.Bucket u, Upload.Key u) :=
       {| content := Upload.Body u; metadata := Upload.Metadata u |}]> σ).

Definition copyObject (command : CopyObjectCommand.t) (σ : t) : settled unit * t :=
  match splitSource (CopyObjectCommand.CopySource command) ≫= (σ !!.) with
  | Some o =>
      let md :=
        if bool_decide (CopyObjectCommand.MetadataDirective command = lit "REPLACE")
        then CopyObjectCommand.Metadata command else metadata o in
      (Fulfilled (),
       <[(CopyObjectCommand.Bucket command, CopyObjectCommand.Key command) :=
           {| content := content o; metadata := md |}]> σ)
  | None => (Rejected noSuchKey, σ)
  end.

Definition fetchSigned (url : SignedUrl) (method : jsstring) (σ : t)
  : settled FetchResponse * t :=
  if bool_decide (method = lit "DELETE")
  then (Fulfilled {| fetchStatus := 204 |},
        delete (DeleteObjectCommand.Bucket (signed url),
                DeleteObjectCommand.Key (signed url)) σ)
  else (Fulfilled {| fetchStatus := 403 |}, σ).

Definition s3 : responder t :=
  λ X c,
    match c in call X return t → settled X * t with
    | s3_send_GetObject command => getObject command
    | s3_send_CopyObject command => copyObject command
    | Upload_done u => upload u
    | getSignedUrl command expires =>
        λ σ, (Fulfilled {| signed := command; expiresIn := expires |}, σ)
    | fetch url method => fetchSigned url method
    end.

End Service.

End Store.

(** An object the read handler can present: its key, and the texts made
    for its type, its length, its date and its entity tag, are values
    [headers.set] does not refuse. *)
Definition presentable (mime_getType : jsstring → option jsstring)
    (Date_toUTCString : Date → jsstring) (Number_toString : N → jsstring)
    (now : Date) (etagOf : Bytes → jsstring) (key : jsstring) (content : Bytes) : Prop :=
  Headers.validValue key = true
  ∧ (∀ t, mime_getType key = Some t → acceptable t)
  ∧ acceptable (Number_toString (N.of_nat (length content)))
  ∧ acceptable (Date_toUTCString now)
  ∧ acceptable (etagOf content).

(** ** Sample data for the examples *)

Module Sample.

Definition allow : Env → Request.t → bool := λ _ _, true.
Definition deny : Env → Request.t → bool := λ _ _, false.

(** A table with one entry, standing for [mime.getType]. *)
Definition mime (path : jsstring) : option jsstring :=
  if endsWith path (lit ".json") then Some (lit "application/json") else None.

Definition utc : Date → jsstring := λ _, lit "Thu, 01 Jan 1970 00:00:00 GMT".
Definition decimal : N → jsstring := λ _, lit "2".

Definition environment : Env := {| BUCKET := lit "files"; bindings := [] |}.

Definition context (name : jsstring) (headers : Headers.t) : EventContext :=
  {| request := Request.make (URL.make (lit "/" ++ name)) headers [];
     env := environment;
     params := {| filename := name |} |}.

(** A storage reply for a two-byte object. *)
Definition reply (md : option Object.t) (type etag : option jsstring)
  : GetObjectCommandOutput.t :=
  GetObjectCommandOutput.make (Some [104; 105]) md type (Some 2) (Some 0%Z) etag.

(** Storage that answers every read with [r] and accepts the rest; a
    signed delete is answered with status [status]. *)
Definition storage (r : settled GetObjectCommandOutput.t) (status : N) : Script :=
  {| onGetObject := λ _, r;
     onCopyObject := λ _, Fulfilled ();
     onUpload := λ _, Fulfilled ();
     onSign := λ command expires, Fulfilled {| signed := command; expiresIn := expires |};
     onFetch := λ _ _, Fulfilled {| fetchStatus := status |} |}.

End Sample.


(** * Properties *)

(** ** Strings and decoding *)

Section Decoding.

Implicit Types s d rest : jsstring.

Lemma escapeOctet_length s B rest :
  escapeOctet s = Some (B, rest) → length s = (3 + length rest)%nat.
Proof.
  destruct s as [|p [|h [|l s']]]; simpl; try discriminate.
  destruct (p =? percent); [|discriminate].
  destruct (hexDigit h); simpl; [|discriminate].
  destruct (hexDigit l); simpl; [|discriminate].
  intros [= _ <-]. done.
Qed.

Lemma continuationOctets_length n s Bs rest :
  continuationOctets n s = Some (Bs, rest) →
  length s = (3 * n + length rest)%nat.
Proof.
  revert s Bs rest. induction n as [|n IH]; intros s Bs rest; simpl.
  - intros [= _ <-]. done.
  - destruct (escapeOctet s) as [[B r1]|] eqn:E; simpl; [|discriminate].
    destruct (continuationOctets n r1) as [[Bs' r2]|] eqn:E'; simpl; [|discriminate].
    intros [= _ <-]. apply escapeOctet_length in E. apply IH in E'. lia.
Qed.

Lemma UTF16EncodeCodePoint_length V : (length (UTF16EncodeCodePoint V) ≤ 2)%nat.
Proof. unfold UTF16EncodeCodePoint. destruct (V <=? 65535); simpl; lia. Qed.

(** The fuel does not matter once it covers the string: [Decode] never
    stops for lack of it in [decodeURIComponent]. *)
Lemma Decode_fuel f1 f2 s :
  (length s ≤ f1)%nat → (length s ≤ f2)%nat → Decode f1 s = Decode f2 s.
Proof.
  revert f2 s. induction f1 as [|f1 IH]; intros f2 s H1 H2.
  { destruct s; [by destruct f2 | simpl in H1; lia]. }
  destruct s as [|C rest]; [by destruct f2|].
  destruct f2 as [|f2]; [simpl in H2; lia|].
  cbn [Decode]. destruct (C =? percent).
  - destruct (escapeOctet (C :: rest)) as [[B rest1]|] eqn:E; [|done].
    cbn [mbind option_bind]. apply escapeOctet_length in E.
    destruct (leadingOnes B) as [|[|n]]; [|done|].
    + rewrite (IH f2 rest1); [done| |]; simpl in *; lia.
    + destruct n as [|[|[|?]]]; [| | |done];
        (destruct (continuationOctets _ rest1) as [[Bs rest2]|] eqn:E2; [|done]);
        cbn [mbind option_bind]; apply continuationOctets_length in E2;
        (destruct (utf8CodePoint _); [|done]); cbn [mbind option_bind];
        (rewrite (IH f2 rest2); [done| |]); simpl in *; lia.
  - rewrite (IH f2 rest); [done| |]; simpl in *; lia.
Qed.

Lemma decodeURIComponent_cons_other C rest :
  C ≠ percent →
  decodeURIComponent (C :: rest) = (R ← decodeURIComponent rest; Some (C :: R)).
Proof.
  intros HC. unfold decodeURIComponent. cbn [length Decode].
  destruct (N.eqb_spec C percent); done.
Qed.

(** A string without a percent sign decodes to itself. *)
Lemma decodeURIComponent_plain s :
  percent ∉ s → decodeURIComponent s = Some s.
Proof.
  induction s as [|C rest IH]; intros Hs; [done|].
  rewrite decodeURIComponent_cons_other by set_solver.
  rewrite IH by set_solver. done.
Qed.

(** Decoding never lengthens a string, and shortens it as soon as it
    holds a percent sign. *)
Lemma Decode_length f s d :
  Decode f s = Some d →
  (length d ≤ length s)%nat ∧ (percent ∈ s → (length d < length s)%nat).
Proof.
  revert s d. induction f as [|f IH]; intros s d.
  { destruct s; simpl; [|discriminate]. intros [= <-]. split; [done|set_solver]. }
  destruct s as [|C rest].
  { intros [= <-]. split; [done|set_solver]. }
  cbn [Decode]. destruct (N.eqb_spec C percent) as [->|HC].
  - destruct (escapeOctet (percent :: rest)) as [[B rest1]|] eqn:E0; [|discriminate].
    cbn [mbind option_bind]. apply escapeOctet_length in E0.
    destruct (leadingOnes B) as [|[|n]]; [|discriminate|].
    + destruct (Decode f rest1) as [R|] eqn:E; [|discriminate].
      intros [= <-]. apply IH in E as [E _]. simpl in *. split; intros; lia.
    + destruct n as [|[|[|?]]]; [| | |discriminate];
        (destruct (continuationOctets _ rest1) as [[Bs rest2]|] eqn:E2; [|discriminate]);
        cbn [mbind option_bind]; apply continuationOctets_length in E2;
        (destruct (utf8CodePoint (B :: Bs)) as [V|]; [|discriminate]);
        cbn [mbind option_bind];
        (destruct (Decode f rest2) as [R|] eqn:E; [|discriminate]);
        intros [= <-]; apply IH in E as [E _];
        pose proof (UTF16EncodeCodePoint_length V);
        rewrite length_app; simpl in *; split; intros; lia.
  - destruct (Decode f rest) as [R|] eqn:E; [|discriminate].
    intros [= <-]. apply IH in E as [E1 E2]. simpl. split; [lia|].
    intros Hin. apply elem_of_cons in Hin as [?|Hin]; [done|]. specialize (E2 Hin). lia.
Qed.

(** A string is its own decoding exactly when it has no percent sign. *)
Lemma decodeURIComponent_fixed s :
  decodeURIComponent s = Some s ↔ percent ∉ s.
Proof.
  split; [|apply decodeURIComponent_plain].
  intros H Hin. apply Decode_length in H as [_ H]. specialize (H Hin). lia.
Qed.

End Decoding.

(** ** Key normalisation *)

Section Keys.

Implicit Types s k d : jsstring.

Lemma slice_drop_last s : slice s 0 (-1) = take (length s - 1) s.
Proof.
  unfold slice. change (0 <? 0)%Z with false. change (-1 <? 0)%Z with true.
  cbn iota. replace (Z.min 0 (Z.of_nat (length s))) with 0%Z by lia.
  change (Z.to_nat 0) with 0%nat. rewrite drop_0. f_equal. lia.
Qed.

Lemma endsWith_nonempty s c : endsWith s [c] = true → s ≠ [].
Proof. by intros H ->. Qed.

(** The read handler's key is the decoded name, less one final slash. *)
Lemma objectKey_decoded k d :
  decodeURIComponent k = Some d →
  FilenameRoute.objectKey k =
    Some (if endsWith d (lit "/") then take (length d - 1) d else d).
Proof.
  intros H. unfold FilenameRoute.objectKey. rewrite H. simpl.
  by rewrite slice_drop_last.
Qed.

(** The keys the normaliser leaves alone: no percent sign, no final
    slash. *)
Lemma objectKey_fixed k :
  FilenameRoute.objectKey k = Some k ↔
  (percent ∉ k) ∧ endsWith k (lit "/") = false.
Proof.
  split.
  - unfold FilenameRoute.objectKey.
    destruct (decodeURIComponent k) as [d|] eqn:E; [|discriminate].
    simpl. destruct (endsWith d (lit "/")) eqn:Ed.
    + intros [= Hk]. exfalso.
      apply Decode_length in E as [E _].
      apply (endsWith_nonempty d slash) in Ed.
      rewrite <- Hk, slice_drop_last, length_take in E.
      destruct d; [done|]. simpl in E. lia.
    + intros [= ->]. split; [|done]. by apply decodeURIComponent_fixed.
  - intros [Hp He]. unfold FilenameRoute.objectKey.
    rewrite decodeURIComponent_plain by done. simpl. by rewrite He.
Qed.

(** The read handler's key is the decoded name itself exactly when that
    name has no final slash; the writing handlers always use the decoded
    name. *)
Lemma objectKey_is_decoded k d :
  decodeURIComponent k = Some d →
  FilenameRoute.objectKey k = Some d ↔ endsWith d (lit "/") = false.
Proof.
  intros H. rewrite (objectKey_decoded _ _ H).
  destruct (endsWith d (lit "/")) eqn:Ed; [|done].
  split; [|done]. intros [= Hd]. exfalso.
  apply (endsWith_nonempty d slash) in Ed.
  apply (f_equal length) in Hd. rewrite length_take in Hd.
  destruct d; [done|]. simpl in Hd. lia.
Qed.

End Keys.

(** C5, as stated, fails: the key [%2525] normalises to [%25], which
    normalises to [%]. *)
Lemma normalize_not_idempotent :
  FilenameRoute.objectKey (lit "%2525") ≫= FilenameRoute.objectKey
  ≠ FilenameRoute.objectKey (lit "%2525").
Proof. vm_compute. discriminate. Qed.

(** C5 (amended): for a key [k] that normalises to [k'], normalising twice
    gives the same as normalising once if and only if [k'] holds no percent
    sign and does not end in a slash. *)
Theorem normalize_idempotent_iff (k k' : jsstring) :
  FilenameRoute.objectKey k = Some k' →
  (FilenameRoute.objectKey k ≫= FilenameRoute.objectKey = FilenameRoute.objectKey k
   ↔ (percent ∉ k') ∧ endsWith k' (lit "/") = false).
Proof.
  intros H. rewrite H. simpl. apply objectKey_fixed.
Qed.

Lemma normalize_idempotent_iff_witness :
  FilenameRoute.objectKey (lit "dir%2Ffile.txt%2F") = Some (lit "dir/file.txt") ∧
  (FilenameRoute.objectKey (lit "dir%2Ffile.txt%2F") ≫= FilenameRoute.objectKey
     = FilenameRoute.objectKey (lit "dir%2Ffile.txt%2F")
   ↔ (percent ∉ lit "dir/file.txt") ∧ endsWith (lit "dir/file.txt") (lit "/") = false).
Proof.
  split; [reflexivity|].
  apply (normalize_idempotent_iff (lit "dir%2Ffile.txt%2F") (lit "dir/file.txt")).
  reflexivity.
Defined.

(** ** Objects and their properties *)

Lemma Object_get_absent (md : Object.t) k : k ∉ md.*1 → Object.get md k = None.
Proof.
  induction md as [|[k' v'] md IH]; [done|]. simpl. intros Hk.
  apply not_elem_of_cons in Hk as [Hne Hk].
  rewrite bool_decide_eq_false_2 by congruence. by apply IH.
Qed.

(** ** The Headers class *)

Lemma Headers_set_Some (h h' : Headers.t) name value :
  Headers.set h name value = Some h' →
  Headers.validName name = true ∧ acceptable value
  ∧ h' = <[toLowerCase name := Headers.normalize value]> h.
Proof.
  unfold Headers.set, acceptable.
  destruct (Headers.validName name); [|done].
  destruct (Headers.validValue (Headers.normalize value)); [|done].
  by intros [= <-].
Qed.

Lemma Headers_set_accepted (h : Headers.t) name value :
  Headers.validName name = true → acceptable value →
  Headers.set h name value = Some (<[toLowerCase name := Headers.normalize value]> h).
Proof. unfold Headers.set, acceptable. by intros -> ->. Qed.

(** A value that begins and ends with something other than whitespace is
    stored as it is. *)
Lemma normalize_fixed (c d : N) (s : jsstring) :
  Headers.isWhitespace c = false → Headers.isWhitespace d = false →
  Headers.normalize (c :: s ++ [d]) = c :: s ++ [d].
Proof.
  intros Hc Hd. unfold Headers.normalize. cbn [Headers.stripStart]. rewrite Hc.
  change (c :: s ++ [d]) with ((c :: s) ++ [d]). rewrite reverse_snoc.
  cbn [Headers.stripStart]. rewrite Hd.
  by rewrite <- reverse_snoc, reverse_involutive.
Qed.

Lemma validValue_app (s1 s2 : jsstring) :
  Headers.validValue (s1 ++ s2) = Headers.validValue s1 && Headers.validValue s2.
Proof. unfold Headers.validValue. apply forallb_app. Qed.

(** The disposition is refused exactly when the key cannot be in a header:
    a code unit above 255, a NUL, a line feed or a carriage return. *)
Lemma disposition_normal (key : jsstring) :
  Headers.normalize (FilenameRoute.disposition key) = FilenameRoute.disposition key.
Proof.
  unfold FilenameRoute.disposition.
  change (lit "inline; filename=" ++ [34] ++ key ++ [34])
    with (105 :: (lit "nline; filename=" ++ [34] ++ key) ++ [34]).
  by apply normalize_fixed.
Qed.

Lemma disposition_acceptable (key : jsstring) :
  acceptable (FilenameRoute.disposition key) ↔ Headers.validValue key = true.
Proof.
  unfold acceptable. rewrite disposition_normal. unfold FilenameRoute.disposition.
  rewrite !validValue_app.
  change (Headers.validValue (lit "inline; filename=")) with true.
  change (Headers.validValue [34]) with true.
  by rewrite andb_true_r.
Qed.

(** ** Metadata as headers *)

Lemma metadataHeaders_refused (md : Object.t) :
  foldl (λ acc kv, h ← acc; Headers.set h kv.1 kv.2) None md = None.
Proof. by induction md. Qed.

(** Projecting delivered metadata onto headers keeps every entry, its value
    normalised. *)
Lemma metadataHeaders_from (md : Object.t) (h0 h : Headers.t) k :
  delivered md →
  foldl (λ acc kv, h ← acc; Headers.set h kv.1 kv.2) (Some h0) md = Some h →
  h !! k = match Object.get md k with
           | Some v => Some (Headers.normalize v)
           | None => h0 !! k
           end.
Proof.
  revert h0. induction md as [|[k' v'] md IH]; intros h0 [Hnd Hlow]; simpl.
  { by intros [= <-]. }
  simpl in *. apply NoDup_cons in Hnd as [Hk' Hnd].
  apply Forall_cons in Hlow as [Hl Hlow].
  destruct (Headers.set h0 k' v') as [h1|] eqn:Hset.
  2: { by rewrite metadataHeaders_refused. }
  apply Headers_set_Some in Hset as (_ & _ & ->). rewrite Hl.
  intros Hfold. rewrite (IH _ (conj Hnd Hlow) Hfold).
  destruct (decide (k' = k)) as [->|Hne].
  - rewrite bool_decide_eq_true_2 by done.
    rewrite Object_get_absent by done. apply lookup_insert_eq.
  - rewrite bool_decide_eq_false_2 by done.
    destruct (Object.get md k); [done|]. by apply lookup_insert_ne.
Qed.

Lemma metadataHeaders_lookup (md : Object.t) (h : Headers.t) k :
  delivered md → FilenameRoute.metadataHeaders md = Some h →
  h !! k = Headers.normalize <$> Object.get md k.
Proof.
  intros Hmd Hh. rewrite (metadataHeaders_from md ∅ h k Hmd Hh).
  by destruct (Object.get md k).
Qed.

Lemma metadataHeaders_accepted_from (md : Object.t) (h0 : Headers.t) :
  acceptableEntries md →
  is_Some (foldl (λ acc kv, h ← acc; Headers.set h kv.1 kv.2) (Some h0) md).
Proof.
  revert h0. induction md as [|[k v] md IH]; intros h0 Hmd; simpl; [by eexists|].
  apply Forall_cons in Hmd as [[Hk Hv] Hmd].
  rewrite (Headers_set_accepted h0 k v Hk Hv). simpl. by apply IH.
Qed.

Lemma metadataHeaders_accepted (md : Object.t) :
  acceptableEntries md → is_Some (FilenameRoute.metadataHeaders md).
Proof. apply metadataHeaders_accepted_from. Qed.

(** ** Objects built from entries *)

Lemma Object_put_fresh (o : Object.t) k v :
  k ∉ o.*1 → Object.put o k v = o ++ [(k, v)].
Proof.
  induction o as [|[k' v'] o IH]; [done|]. simpl. intros Hk.
  apply not_elem_of_cons in Hk as [Hne Hk].
  rewrite bool_decide_eq_false_2 by congruence. by rewrite IH.
Qed.

Lemma Object_fromEntries_from (acc l : list (jsstring * jsstring)) :
  NoDup (acc ++ l).*1 →
  foldl (λ o kv, Object.put o kv.1 kv.2) acc l = acc ++ l.
Proof.
  revert acc. induction l as [|[k v] l IH]; intros acc Hnd; simpl.
  { by rewrite app_nil_r. }
  assert (k ∉ acc.*1) as Hk.
  { rewrite fmap_app in Hnd. apply NoDup_app in Hnd as (_ & Hnd & _).
    intros Hin. apply (Hnd k Hin). simpl. apply list_elem_of_here. }
  rewrite Object_put_fresh by done.
  rewrite IH; rewrite <- app_assoc; done.
Qed.

(** Entries with distinct names are the object they build. *)
Lemma Object_fromEntries_NoDup (l : list (jsstring * jsstring)) :
  NoDup l.*1 → Object.fromEntries l = l.
Proof. intros H. by apply (Object_fromEntries_from []). Qed.

Lemma Object_get_elem (o : Object.t) k v :
  NoDup o.*1 → Object.get o k = Some v ↔ (k, v) ∈ o.
Proof.
  induction o as [|[k' v'] o IH]; simpl; intros Hnd.
  { split; [done|]. by intros ?%elem_of_nil. }
  apply NoDup_cons in Hnd as [Hk' Hnd]. rewrite elem_of_cons.
  destruct (decide (k' = k)) as [->|Hne].
  - rewrite bool_decide_eq_true_2 by done. split.
    + intros [= ->]. by left.
    + intros [[= ->]|Hin]; [done|]. exfalso. apply Hk'.
      apply list_elem_of_fmap. by exists (k, v).
  - rewrite bool_decide_eq_false_2 by done. rewrite IH by done.
    split; [by right|]. intros [[= ? ?]|?]; [congruence|done].
Qed.

Lemma x_store_headers_NoDup request :
  NoDup (FilenameRoute.x_store_headers request).*1.
Proof.
  unfold FilenameRoute.x_store_headers, Headers.entries.
  eapply sublist_NoDup; [|apply fmap_sublist, sublist_filter].
  rewrite merge_sort_Permutation. apply NoDup_fst_map_to_list.
Qed.

(** The metadata a write sends is exactly the [x-store-] headers of the
    request. *)
Lemma x_store_metadata request k v :
  Object.get (Object.fromEntries (FilenameRoute.x_store_headers request)) k = Some v
  ↔ Request.headers request !! k = Some v ∧ startsWith k (lit "x-store-") = true.
Proof.
  rewrite Object_fromEntries_NoDup by apply x_store_headers_NoDup.
  rewrite Object_get_elem by apply x_store_headers_NoDup.
  unfold FilenameRoute.x_store_headers, Headers.entries.
  rewrite list_elem_of_filter, merge_sort_Permutation, elem_of_map_to_list. simpl.
  rewrite Is_true_true. tauto.
Qed.

(** ** The reference bucket *)

Lemma splitSource_bucket (bucket key : jsstring) :
  slash ∉ bucket → Store.splitSource (bucket ++ lit "/" ++ key) = Some (bucket, key).
Proof.
  induction bucket as [|c b IH]; intros Hb; [done|].
  apply not_elem_of_cons in Hb as [Hc Hb]. cbn -[lit].
  destruct (N.eqb_spec c slash) as [->|_]; [done|].
  by rewrite IH.
Qed.

(** ** The handlers *)

Section Routes.

Context (auth : Env → Request.t → bool).
Context (mime_getType : jsstring → option jsstring).
Context (Date_toUTCString : Date → jsstring).
Context (Number_toString : N → jsstring).

Local Abbreviation onRequestGet :=
  (FilenameRoute.onRequestGet auth mime_getType Date_toUTCString Number_toString).
Local Abbreviation respond :=
  (FilenameRoute.respond auth mime_getType Date_toUTCString Number_toString).
Local Abbreviation onRequestPut := (FilenameRoute.onRequestPut auth).
Local Abbreviation onRequestPatch := (FilenameRoute.onRequestPatch auth).
Local Abbreviation onRequestDelete := (FilenameRoute.onRequestDelete auth).

Implicit Types context : EventContext.
Implicit Types key : jsstring.
Implicit Types response : GetObjectCommandOutput.t.
Implicit Types md : list (jsstring * jsstring).
Implicit Types size : N.
Implicit Types modified : Date.

(** *** Shape of the programs *)

Lemma onRequestGet_unfold context key :
  FilenameRoute.objectKey (filename (params context)) = Some key →
  onRequestGet context =
    Await (s3_send_GetObject (GetObjectCommand.make (BUCKET (env context)) key))
      (λ r, match r with
            | Rejected _ => Return FilenameRoute.notFound
            | Fulfilled response => respond context key response
            end).
Proof. intros H. unfold FilenameRoute.onRequestGet. by rewrite H. Qed.

Lemma onRequestGet_malformed context :
  FilenameRoute.objectKey (filename (params context)) = None →
  onRequestGet context = Throw URIError.
Proof. intros H. unfold FilenameRoute.onRequestGet. by rewrite H. Qed.

(** *** Headers built from the storage reply *)

Local Abbreviation headersAtGate :=
  (FilenameRoute.headersAtGate mime_getType Date_toUTCString Number_toString).

(** The content type the handler asks the headers to hold (lines 43-53). *)
Local Abbreviation resolvedType key response md :=
  (if bool_decide (Object.get md (lit "x-store-type") = Some (lit "text"))
   then lit "text/plain;charset=utf-8"
   else toString (FilenameRoute.contentType mime_getType key response)).

Lemma respond_unfold context key response md size modified :
  GetObjectCommandOutput.Metadata response = Some md →
  GetObjectCommandOutput.ContentLength response = Some size →
  GetObjectCommandOutput.LastModified response = Some modified →
  respond context key response =
    match headersAtGate key response md size modified with
    | None => Throw TypeError
    | Some h =>
        if negb (bool_decide
                   (Headers.get h (lit "x-store-visibility") = Some (lit "public")))
           && negb (auth (env context) (request context))
        then Return FilenameRoute.notFound
        else
          match Headers.set h (lit "content-disposition")
                  (FilenameRoute.disposition key) with
          | None => Throw TypeError
          | Some h' =>
              match GetObjectCommandOutput.Body response with
              | Some body => Return (Response.make 200 (Stream body) h')
              | None => Throw TypeError
              end
          end
    end.
Proof.
  intros Hm Hs Hl. unfold FilenameRoute.respond, FilenameRoute.headersAtGate, Object.entries.
  rewrite Hm, Hs, Hl. cbn [orThrow mbind prog_bind bind].
  destruct (FilenameRoute.metadataHeaders md) as [h0|]; [|done].
  cbn [orThrow mbind prog_bind bind option_bind].
  destruct (Headers.set h0 (lit "content-type") _) as [h1|]; [|done].
  cbn [orThrow mbind prog_bind bind option_bind].
  destruct (bool_decide (Object.get md (lit "x-store-type") = Some (lit "text"))).
  - destruct (Headers.set h1 (lit "content-type") _) as [h2|]; [|done].
    cbn [orThrow mbind prog_bind bind option_bind].
    destruct (Headers.set h2 (lit "content-length") _) as [h3|]; [|done].
    cbn [orThrow mbind prog_bind bind option_bind].
    destruct (Headers.set h3 (lit "last-modified") _) as [h4|]; [|done].
    cbn [orThrow mbind prog_bind bind option_bind].
    destruct (Headers.set h4 (lit "etag") _) as [h5|]; [|done].
    cbn [orThrow mbind prog_bind bind option_bind].
    destruct (_ && _); [done|].
    destruct (Headers.set h5 (lit "content-disposition") _) as [h6|]; [|done].
    cbn [orThrow mbind prog_bind bind option_bind].
    by destruct (GetObjectCommandOutput.Body response).
  - cbn [orThrow mbind prog_bind bind option_bind].
    destruct (Headers.set h1 (lit "content-length") _) as [h3|]; [|done].
    cbn [orThrow mbind prog_bind bind option_bind].
    destruct (Headers.set h3 (lit "last-modified") _) as [h4|]; [|done].
    cbn [orThrow mbind prog_bind bind option_bind].
    destruct (Headers.set h4 (lit "etag") _) as [h5|]; [|done].
    cbn [orThrow mbind prog_bind bind option_bind].
    destruct (_ && _); [done|].
    destruct (Headers.set h5 (lit "content-disposition") _) as [h6|]; [|done].
    cbn [orThrow mbind prog_bind bind option_bind].
    by destruct (GetObjectCommandOutput.Body response).
Qed.

Lemma respond_incomplete context key response :
  GetObjectCommandOutput.Metadata response = None
  ∨ GetObjectCommandOutput.ContentLength response = None
  ∨ GetObjectCommandOutput.LastModified response = None →
  respond context key response = Throw TypeError.
Proof.
  unfold FilenameRoute.respond, Object.entries.
  destruct (GetObjectCommandOutput.Metadata response) as [md|]; [|done].
  cbn [orThrow mbind prog_bind bind].
  destruct (FilenameRoute.metadataHeaders md) as [h0|]; [|done].
  cbn [orThrow mbind prog_bind bind].
  destruct (Headers.set h0 (lit "content-type") _) as [h1|]; [|done].
  cbn [orThrow mbind prog_bind bind].
  destruct (bool_decide (Object.get md (lit "x-store-type") = Some (lit "text")));
    [destruct (Headers.set h1 (lit "content-type") _) as [h2|]; [|done]|];
    cbn [orThrow mbind prog_bind bind];
    (destruct (GetObjectCommandOutput.ContentLength response) as [size|]; [|done]);
    cbn [orThrow mbind prog_bind bind];
    (destruct (Headers.set _ (lit "content-length") _) as [h3|]; [|done]);
    cbn [orThrow mbind prog_bind bind];
    (destruct (GetObjectCommandOutput.LastModified response) as [modified|]; [|done]);
    intros [|[|]]; done.
Qed.

Lemma headersAtGate_Some key response md size modified (h : gmap jsstring jsstring) :
  headersAtGate key response md size modified = Some h →
  ∃ h0 : Headers.t,
    FilenameRoute.metadataHeaders md = Some h0
    ∧ h = <[lit "etag" :=
              Headers.normalize (toString (GetObjectCommandOutput.ETag response))]>
            (<[lit "last-modified" := Headers.normalize (Date_toUTCString modified)]>
               (<[lit "content-length" := Headers.normalize (Number_toString size)]>
                  (<[lit "content-type" :=
                       Headers.normalize (resolvedType key response md)]> h0))).
Proof.
  unfold FilenameRoute.headersAtGate.
  destruct (FilenameRoute.metadataHeaders md) as [h0|]; [|done].
  cbn [mbind option_bind].
  destruct (Headers.set h0 (lit "content-type") _) as [h1|] eqn:H1; [|done].
  cbn [mbind option_bind]. apply Headers_set_Some in H1 as (_ & _ & ->).
  destruct (bool_decide (Object.get md (lit "x-store-type") = Some (lit "text"))).
  - destruct (Headers.set _ (lit "content-type") _) as [h2|] eqn:H2; [|done].
    cbn [mbind option_bind]. apply Headers_set_Some in H2 as (_ & _ & ->).
    rewrite insert_insert_eq.
    destruct (Headers.set _ (lit "content-length") _) as [h3|] eqn:H3; [|done].
    cbn [mbind option_bind]. apply Headers_set_Some in H3 as (_ & _ & ->).
    destruct (Headers.set _ (lit "last-modified") _) as [h4|] eqn:H4; [|done].
    cbn [mbind option_bind]. apply Headers_set_Some in H4 as (_ & _ & ->).
    intros H5. apply Headers_set_Some in H5 as (_ & _ & ->). by exists h0.
  - cbn [mbind option_bind].
    destruct (Headers.set _ (lit "content-length") _) as [h3|] eqn:H3; [|done].
    cbn [mbind option_bind]. apply Headers_set_Some in H3 as (_ & _ & ->).
    destruct (Headers.set _ (lit "last-modified") _) as [h4|] eqn:H4; [|done].
    cbn [mbind option_bind]. apply Headers_set_Some in H4 as (_ & _ & ->).
    intros H5. apply Headers_set_Some in H5 as (_ & _ & ->). by exists h0.
Qed.

(** The headers are built as soon as every name and value is one the
    platform accepts. *)
Lemma headersAtGate_accepted key response md size modified :
  acceptableEntries md →
  acceptable (toString (FilenameRoute.contentType mime_getType key response)) →
  acceptable (Number_toString size) →
  acceptable (Date_toUTCString modified) →
  acceptable (toString (GetObjectCommandOutput.ETag response)) →
  is_Some (headersAtGate key response md size modified).
Proof.
  intros Hmd Ht Hs Hl He. unfold FilenameRoute.headersAtGate.
  destruct (metadataHeaders_accepted md Hmd) as [h0 ->]. cbn [mbind option_bind].
  rewrite (Headers_set_accepted h0 (lit "content-type") _ eq_refl Ht).
  cbn [mbind option_bind].
  destruct (bool_decide (Object.get md (lit "x-store-type") = Some (lit "text")));
    [rewrite (Headers_set_accepted _ (lit "content-type")
                (lit "text/plain;charset=utf-8") eq_refl eq_refl)|];
    cbn [mbind option_bind];
    rewrite (Headers_set_accepted _ (lit "content-length") _ eq_refl Hs);
    cbn [mbind option_bind];
    rewrite (Headers_set_accepted _ (lit "last-modified") _ eq_refl Hl);
    cbn [mbind option_bind];
    rewrite (Headers_set_accepted _ (lit "etag") _ eq_refl He); by eexists.
Qed.

Lemma gate_visibility key response md size modified (h : gmap jsstring jsstring) :
  headersAtGate key response md size modified = Some h →
  delivered md →
  Headers.get h (lit "x-store-visibility")
    = Headers.normalize <$> Object.get md (lit "x-store-visibility").
Proof.
  intros Hh Hmd. apply headersAtGate_Some in Hh as (h0 & Hh0 & ->).
  unfold Headers.get.
  do 4 (rewrite lookup_insert_ne by (vm_compute; discriminate)).
  by apply metadataHeaders_lookup.
Qed.

(** The headers of a served response, name by name. *)
Lemma served_headers key response md size modified (h h' : gmap jsstring jsstring) :
  headersAtGate key response md size modified = Some h →
  Headers.set h (lit "content-disposition") (FilenameRoute.disposition key) = Some h' →
  Headers.get h' (lit "content-type")
    = Some (Headers.normalize (resolvedType key response md))
  ∧ Headers.get h' (lit "content-length") = Some (Headers.normalize (Number_toString size))
  ∧ Headers.get h' (lit "last-modified")
    = Some (Headers.normalize (Date_toUTCString modified))
  ∧ Headers.get h' (lit "etag")
    = Some (Headers.normalize (toString (GetObjectCommandOutput.ETag response)))
  ∧ Headers.get h' (lit "content-disposition") = Some (FilenameRoute.disposition key)
  ∧ (delivered md →
     ∀ k, toLowerCase k ∉ nativeHeaders →
          Headers.get h' k = Headers.normalize <$> Object.get md (toLowerCase k)).
Proof.
  intros Hh Hd. apply headersAtGate_Some in Hh as (h0 & Hh0 & ->).
  apply Headers_set_Some in Hd as (_ & _ & ->). rewrite disposition_normal.
  unfold Headers.get. repeat split.
  - do 4 (rewrite lookup_insert_ne by (vm_compute; discriminate)). apply lookup_insert_eq.
  - do 3 (rewrite lookup_insert_ne by (vm_compute; discriminate)). apply lookup_insert_eq.
  - do 2 (rewrite lookup_insert_ne by (vm_compute; discriminate)). apply lookup_insert_eq.
  - rewrite lookup_insert_ne by (vm_compute; discriminate). apply lookup_insert_eq.
  - apply lookup_insert_eq.
  - intros Hmd k Hk. unfold nativeHeaders in Hk.
    repeat (apply not_elem_of_cons in Hk as [? Hk]).
    do 5 (rewrite lookup_insert_ne
            by (let E := fresh in
                intros E;
                match goal with
                | H : toLowerCase k ≠ _ |- _ => apply H; rewrite <- E; reflexivity
                end)).
    by apply metadataHeaders_lookup.
Qed.

(** *** Running the handlers *)

Section Run.

Context {W : Type} (R : responder W).
Implicit Types w : W.

Lemma run_get_rejected context key e w w' :
  FilenameRoute.objectKey (filename (params context)) = Some key →
  R _ (s3_send_GetObject (GetObjectCommand.make (BUCKET (env context)) key)) w
    = (Rejected e, w') →
  run R (onRequestGet context) w =
    (Returned FilenameRoute.notFound, w',
     [Issued (s3_send_GetObject (GetObjectCommand.make (BUCKET (env context)) key))]).
Proof.
  intros Hk HR. rewrite (onRequestGet_unfold _ _ Hk). cbn [run]. by rewrite HR.
Qed.

Lemma run_get_fulfilled context key response w w' :
  FilenameRoute.objectKey (filename (params context)) = Some key →
  R _ (s3_send_GetObject (GetObjectCommand.make (BUCKET (env context)) key)) w
    = (Fulfilled response, w') →
  run R (onRequestGet context) w =
    let '(o, w2, t) := run R (respond context key response) w' in
    (o, w2,
     Issued (s3_send_GetObject (GetObjectCommand.make (BUCKET (env context)) key)) :: t).
Proof.
  intros Hk HR. rewrite (onRequestGet_unfold _ _ Hk). cbn [run]. by rewrite HR.
Qed.

Lemma run_put context key w :
  auth (env context) (request context) = true →
  decodeURIComponent (filename (params context)) = Some key →
  let u := Upload.make (BUCKET (env context)) key (Request.body (request context))
             (Object.fromEntries (FilenameRoute.x_store_headers (request context)))
             4 (1024 * 1024 * 5) false in
  run R (onRequestPut context) w =
    (match (R _ (Upload_done u) w).1 with
     | Fulfilled _ => Returned FilenameRoute.ok
     | Rejected e => Thrown e
     end, (R _ (Upload_done u) w).2, [Issued (Upload_done u)]).
Proof.
  intros Ha Hk u. unfold FilenameRoute.onRequestPut. rewrite Ha, Hk. simpl.
  fold u. by destruct (R unit (Upload_done u) w) as [[[]|e] w'].
Qed.

Lemma run_patch context key w :
  auth (env context) (request context) = true →
  decodeURIComponent (filename (params context)) = Some key →
  let c := CopyObjectCommand.make (BUCKET (env context))
             (BUCKET (env context) ++ lit "/" ++ key) key (lit "REPLACE")
             (Object.fromEntries (FilenameRoute.x_store_headers (request context))) in
  run R (onRequestPatch context) w =
    (match (R _ (s3_send_CopyObject c) w).1 with
     | Fulfilled _ => Returned FilenameRoute.ok
     | Rejected e => Thrown e
     end, (R _ (s3_send_CopyObject c) w).2, [Issued (s3_send_CopyObject c)]).
Proof.
  intros Ha Hk c. unfold FilenameRoute.onRequestPatch. rewrite Ha, Hk.
  cbn -[lit app]. fold c. by destruct (R unit (s3_send_CopyObject c) w) as [[[]|e] w'].
Qed.

Lemma run_delete context key url reply w w1 w2 :
  auth (env context) (request context) = true →
  decodeURIComponent (filename (params context)) = Some key →
  R _ (getSignedUrl (DeleteObjectCommand.make (BUCKET (env context)) key) 3600) w
    = (Fulfilled url, w1) →
  R _ (fetch url (lit "DELETE")) w1 = (Fulfilled reply, w2) →
  run R (onRequestDelete context) w =
    (Returned FilenameRoute.ok, w2,
     [Issued (getSignedUrl (DeleteObjectCommand.make (BUCKET (env context)) key) 3600);
      Issued (fetch url (lit "DELETE"))]).
Proof.
  intros Ha Hk Hs Hf. unfold FilenameRoute.onRequestDelete. rewrite Ha, Hk. simpl.
  rewrite Hs. simpl. by rewrite Hf.
Qed.

Lemma run_unauthorized context w :
  auth (env context) (request context) = false →
  run R (onRequestPut context) w = (Returned FilenameRoute.unauthorized, w, []) ∧
  run R (onRequestPatch context) w = (Returned FilenameRoute.unauthorized, w, []) ∧
  run R (onRequestDelete context) w = (Returned FilenameRoute.unauthorized, w, []).
Proof.
  intros Ha.
  unfold FilenameRoute.onRequestPut, FilenameRoute.onRequestPatch,
    FilenameRoute.onRequestDelete.
  by rewrite Ha.
Qed.

(** *** The read path *)

Lemma run_get_complete context key response md size modified w w' :
  FilenameRoute.objectKey (filename (params context)) = Some key →
  R _ (s3_send_GetObject (GetObjectCommand.make (BUCKET (env context)) key)) w
    = (Fulfilled response, w') →
  GetObjectCommandOutput.Metadata response = Some md →
  GetObjectCommandOutput.ContentLength response = Some size →
  GetObjectCommandOutput.LastModified response = Some modified →
  (run R (onRequestGet context) w).1.1 =
    match headersAtGate key response md size modified with
    | None => Thrown TypeError
    | Some h =>
        if negb (bool_decide
                   (Headers.get h (lit "x-store-visibility") = Some (lit "public")))
           && negb (auth (env context) (request context))
        then Returned FilenameRoute.notFound
        else
          match Headers.set h (lit "content-disposition")
                  (FilenameRoute.disposition key) with
          | None => Thrown TypeError
          | Some h' =>
              match GetObjectCommandOutput.Body response with
              | Some body => Returned (Response.make 200 (Stream body) h')
              | None => Thrown TypeError
              end
          end
    end.
Proof.
  intros Hk HR Hm Hs Hl. rewrite (run_get_fulfilled _ _ _ _ _ Hk HR).
  rewrite (respond_unfold _ _ _ _ _ _ Hm Hs Hl).
  destruct (headersAtGate key response md size modified) as [h|]; [|done].
  destruct (_ && _); [done|].
  destruct (Headers.set h _ _) as [h'|]; [|done].
  by destruct (GetObjectCommandOutput.Body response).
Qed.

(** Handling the reply issues no call and ends in one of three ways. *)
Lemma respond_outcome context key response w :
  ∃ o, run R (respond context key response) w = (o, w, [])
       ∧ (o = Thrown TypeError ∨ o = Returned FilenameRoute.notFound
          ∨ ∃ body h, o = Returned (Response.make 200 (Stream body) h)).
Proof.
  destruct (GetObjectCommandOutput.Metadata response) as [md|] eqn:Hm.
  2: { rewrite respond_incomplete by auto. eexists. split; [done|]. by left. }
  destruct (GetObjectCommandOutput.ContentLength response) as [size|] eqn:Hs.
  2: { rewrite respond_incomplete by auto. eexists. split; [done|]. by left. }
  destruct (GetObjectCommandOutput.LastModified response) as [modified|] eqn:Hl.
  2: { rewrite respond_incomplete by auto. eexists. split; [done|]. by left. }
  rewrite (respond_unfold _ _ _ _ _ _ Hm Hs Hl).
  destruct (headersAtGate key response md size modified) as [h|].
  2: { eexists. split; [done|]. by left. }
  destruct (_ && _).
  { eexists. split; [done|]. right. by left. }
  destruct (Headers.set h _ _) as [h'|].
  2: { eexists. split; [done|]. by left. }
  destruct (GetObjectCommandOutput.Body response) as [body|].
  - eexists. split; [done|]. right. right. by eexists _, _.
  - eexists. split; [done|]. by left.
Qed.

Lemma get_outcome context w :
  (run R (onRequestGet context) w).1.1 = Thrown URIError
  ∨ (run R (onRequestGet context) w).1.1 = Thrown TypeError
  ∨ (run R (onRequestGet context) w).1.1 = Returned FilenameRoute.notFound
  ∨ ∃ body h,
      (run R (onRequestGet context) w).1.1 = Returned (Response.make 200 (Stream body) h).
Proof.
  destruct (FilenameRoute.objectKey (filename (params context))) as [key|] eqn:Hk.
  2: { left. by rewrite (onRequestGet_malformed _ Hk). }
  destruct (R _ (s3_send_GetObject
                   (GetObjectCommand.make (BUCKET (env context)) key)) w)
    as [[response|e] w'] eqn:HR.
  2: { right. right. left. by rewrite (run_get_rejected _ _ _ _ _ Hk HR). }
  rewrite (run_get_fulfilled _ _ _ _ _ Hk HR).
  destruct (respond_outcome context key response w') as (o & -> & Ho). cbn [fst].
  destruct Ho as [-> | [-> | (body & h & ->)]]; eauto 6.
Qed.

(** Every response the read handler returns has status 200 or 404. *)
Lemma get_status context r w :
  (run R (onRequestGet context) w).1.1 = Returned r →
  Response.status r = 200 ∨ Response.status r = 404.
Proof.
  destruct (get_outcome context w) as [-> | [-> | [-> | (body & h & ->)]]];
    [done | done | |]; intros [= <-]; [by right | by left].
Qed.

(** The read handler throws nothing but [URIError] and [TypeError]. *)
Lemma get_thrown context e w :
  (run R (onRequestGet context) w).1.1 = Thrown e → e = URIError ∨ e = TypeError.
Proof.
  destruct (get_outcome context w) as [-> | [-> | [-> | (body & h & ->)]]];
    [| | done | done]; intros [= <-]; [by left | by right].
Qed.


(** C7 (amended): whatever error the storage retrieval fails with, the
    answer is the 404 response, and nothing else is asked of storage; every
    response of the read handler has status 200 or 404; and when the
    handler ends with an exception instead, that exception is a [URIError]
    or a [TypeError], never the error of the storage. *)
Theorem get_storage_failure_is_not_found context key e w w' :
  FilenameRoute.objectKey (filename (params context)) = Some key →
  R _ (s3_send_GetObject (GetObjectCommand.make (BUCKET (env context)) key)) w
    = (Rejected e, w') →
  run R (onRequestGet context) w =
    (Returned FilenameRoute.notFound, w',
     [Issued (s3_send_GetObject (GetObjectCommand.make (BUCKET (env context)) key))])
  ∧ Response.status FilenameRoute.notFound = 404
  ∧ (∀ w0 r, (run R (onRequestGet context) w0).1.1 = Returned r →
       Response.status r = 200 ∨ Response.status r = 404)
  ∧ (∀ w0 e0, (run R (onRequestGet context) w0).1.1 = Thrown e0 →
       e0 = URIError ∨ e0 = TypeError).
Proof.
  intros Hk HR. split; [by apply (run_get_rejected _ _ e)|]. split; [done|].
  split; [intros w0 r; apply get_status | intros w0 e0; apply get_thrown].
Qed.

(** C4: when the credential predicate fails, PUT, PATCH and DELETE
    answer 401 without a single call: the environment, whatever it
    holds, is left as it was. *)
Theorem unauthorized_mutation_touches_nothing context w :
  auth (env context) (request context) = false →
  run R (onRequestPut context) w = (Returned FilenameRoute.unauthorized, w, [])
  ∧ run R (onRequestPatch context) w = (Returned FilenameRoute.unauthorized, w, [])
  ∧ run R (onRequestDelete context) w = (Returned FilenameRoute.unauthorized, w, [])
  ∧ Response.status FilenameRoute.unauthorized = 401.
Proof.
  intros Ha. destruct (run_unauthorized context w Ha) as (H1 & H2 & H3). done.
Qed.

(** C9: once the predicate passes and the signed request completes,
    DELETE answers 200 "OK" whatever status the storage service replied
    with. *)
Theorem delete_ignores_storage_status context key url reply w w1 w2 :
  auth (env context) (request context) = true →
  decodeURIComponent (filename (params context)) = Some key →
  R _ (getSignedUrl (DeleteObjectCommand.make (BUCKET (env context)) key) 3600) w
    = (Fulfilled url, w1) →
  R _ (fetch url (lit "DELETE")) w1 = (Fulfilled reply, w2) →
  (run R (onRequestDelete context) w).1.1
    = Returned (Response.make 200 (Text (lit "OK")) Headers.new).
Proof.
  intros Ha Hk Hs Hf. by rewrite (run_delete _ _ _ _ _ _ _ Ha Hk Hs Hf).
Qed.

(** C6 (amended): the content type of a served response is the UTF-8
    plain-text type when [x-store-type] is [text]; otherwise, for a stored
    type equal to the generic one, the type registered for the key, or the
    generic type when there is none; otherwise the stored type; in each
    case less the whitespace around it.  It is not empty unless the type it
    comes from is empty or all whitespace. *)
Theorem get_content_type context key response md r w w' :
  FilenameRoute.objectKey (filename (params context)) = Some key →
  R _ (s3_send_GetObject (GetObjectCommand.make (BUCKET (env context)) key)) w
    = (Fulfilled response, w') →
  GetObjectCommandOutput.Metadata response = Some md →
  (run R (onRequestGet context) w).1.1 = Returned r →
  Response.status r = 200 →
  let stored := GetObjectCommandOutput.ContentType response in
  let T := Headers.get (Response.headers r) (lit "content-type") in
  let text := Object.get md (lit "x-store-type") = Some (lit "text") in
  (text → T = Some (lit "text/plain;charset=utf-8"))
  ∧ (¬ text → stored = Some FilenameRoute.octetStream →
       (∀ c t, mime_getType key = Some (c :: t) → T = Some (Headers.normalize (c :: t)))
       ∧ (mime_getType key = None ∨ mime_getType key = Some [] →
            T = Some FilenameRoute.octetStream))
  ∧ (¬ text → stored ≠ Some FilenameRoute.octetStream →
       T = Some (Headers.normalize (toString stored)))
  ∧ (Headers.normalize (toString stored) ≠ [] →
     (∀ t, mime_getType key = Some t → t ≠ [] → Headers.normalize t ≠ []) →
     ∃ c t, T = Some (c :: t)).
Proof.
  intros Hk HR Hm Hrun Hst stored T text.
  destruct (GetObjectCommandOutput.ContentLength response) as [size|] eqn:Hs.
  2: { rewrite (run_get_fulfilled _ _ _ _ _ Hk HR), respond_incomplete in Hrun by auto.
       done. }
  destruct (GetObjectCommandOutput.LastModified response) as [modified|] eqn:Hl.
  2: { rewrite (run_get_fulfilled _ _ _ _ _ Hk HR), respond_incomplete in Hrun by auto.
       done. }
  rewrite (run_get_complete _ _ _ _ _ _ _ _ Hk HR Hm Hs Hl) in Hrun.
  destruct (headersAtGate key response md size modified) as [h|] eqn:Hh; [|done].
  destruct (_ && _); [by injection Hrun as <-|].
  destruct (Headers.set h _ _) as [h'|] eqn:Hd; [|done].
  destruct (GetObjectCommandOutput.Body response) as [body|]; [|done].
  injection Hrun as <-. subst T. cbn [Response.headers].
  destruct (served_headers _ _ _ _ _ _ _ Hh Hd) as (-> & _).
  fold text. unfold FilenameRoute.contentType. fold stored.
  split; [|split; [|split]].
  - intros Ht. by rewrite bool_decide_eq_true_2.
  - intros Ht Hst'. rewrite bool_decide_eq_false_2 by done.
    rewrite Hst', bool_decide_eq_true_2 by done. cbn [negb toString default].
    split.
    + by intros c t ->.
    + by intros [-> | ->].
  - intros Ht Hst'. rewrite bool_decide_eq_false_2 by done.
    by rewrite (bool_decide_eq_false_2 _ Hst').
  - intros Hne Hmime. destruct (bool_decide text); [by eexists _, _|].
    destruct (bool_decide (stored = Some FilenameRoute.octetStream)) eqn:Hb.
    + cbn [negb toString default].
      destruct (mime_getType key) as [[|c t]|] eqn:Hg; cbn [orElse id];
        [by eexists _, _ | | by eexists _, _].
      specialize (Hmime (c :: t) eq_refl).
      destruct (Headers.normalize (c :: t)) as [|c' t']; [by exfalso; apply Hmime|].
      by eexists _, _.
    + cbn [negb].
      destruct (Headers.normalize (toString stored)) as [|c' t']; [done|].
      by eexists _, _.
Qed.

(** C10 (amended): a storage reply without [Metadata], [ContentLength]
    or [LastModified] makes the read handler throw [TypeError] instead
    of returning a response; a reply that lacks only [ETag] does not by
    that alone: when its headers are built and the key is one a header can
    hold, the handler returns, and a served response carries the header
    [etag: undefined]. *)
Theorem get_incomplete_reply context key response w w' :
  FilenameRoute.objectKey (filename (params context)) = Some key →
  R _ (s3_send_GetObject (GetObjectCommand.make (BUCKET (env context)) key)) w
    = (Fulfilled response, w') →
  (GetObjectCommandOutput.Metadata response = None
   ∨ GetObjectCommandOutput.ContentLength response = None
   ∨ GetObjectCommandOutput.LastModified response = None →
   (run R (onRequestGet context) w).1.1 = Thrown TypeError)
  ∧ (∀ md size modified,
       GetObjectCommandOutput.Metadata response = Some md →
       GetObjectCommandOutput.ContentLength response = Some size →
       GetObjectCommandOutput.LastModified response = Some modified →
       is_Some (GetObjectCommandOutput.Body response) →
       GetObjectCommandOutput.ETag response = None →
       is_Some (headersAtGate key response md size modified) →
       Headers.validValue key = true →
       ∃ r, (run R (onRequestGet context) w).1.1 = Returned r
            ∧ (Response.status r = 200 →
               Headers.get (Response.headers r) (lit "etag") = Some (lit "undefined"))).
Proof.
  intros Hk HR. split.
  - intros H. by rewrite (run_get_fulfilled _ _ _ _ _ Hk HR), respond_incomplete.
  - intros md size modified Hm Hs Hl [body Hb] He [h Hh] Hkey.
    rewrite (run_get_complete _ _ _ _ _ _ _ _ Hk HR Hm Hs Hl), Hh, Hb.
    destruct (_ && _); [by eexists|].
    destruct (Headers.set h _ _) as [h'|] eqn:Hd.
    2: { rewrite Headers_set_accepted in Hd; [done | done |].
         by apply disposition_acceptable. }
    eexists. split; [done|]. intros _. cbn [Response.headers].
    destruct (served_headers _ _ _ _ _ _ _ Hh Hd) as (_ & _ & _ & -> & _).
    by rewrite He.
Qed.

End Run.

(** *** Metadata update *)

(** C8: an authorised PATCH sends one copy of the object onto itself with
    the [REPLACE] directive and the request's [x-store-] headers as
    metadata.  On the reference bucket the object keeps its content and
    gets exactly that metadata, whatever it had; when the object is
    missing the copy is rejected, the rejection leaves the handler as an
    exception and the bucket is unchanged.  In any environment a rejected
    copy is thrown on. *)
Theorem patch_replaces_metadata (now : Date) (etagOf : Bytes → jsstring) context
    (key : jsstring) (σ : gmap (jsstring * jsstring) Store.StoredObject) :
  auth (env context) (request context) = true →
  decodeURIComponent (filename (params context)) = Some key →
  slash ∉ BUCKET (env context) →
  let bucket := BUCKET (env context) in
  let md := Object.fromEntries (FilenameRoute.x_store_headers (request context)) in
  let command :=
    CopyObjectCommand.make bucket (bucket ++ lit "/" ++ key) key (lit "REPLACE") md in
  (∀ k v, Object.get md k = Some v
          ↔ Request.headers (request context) !! k = Some v
            ∧ startsWith k (lit "x-store-") = true)
  ∧ (∀ o, σ !! (bucket, key) = Some o →
       run (Store.s3 now etagOf) (onRequestPatch context) σ =
         (Returned FilenameRoute.ok,
          <[(bucket, key) := {| Store.content := Store.content o; Store.metadata := md |}]> σ,
          [Issued (s3_send_CopyObject command)]))
  ∧ (σ !! (bucket, key) = None →
       run (Store.s3 now etagOf) (onRequestPatch context) σ =
         (Thrown Store.noSuchKey, σ, [Issued (s3_send_CopyObject command)]))
  ∧ (∀ (W : Type) (R : responder W) (w w' : W) e,
       R _ (s3_send_CopyObject command) w = (Rejected e, w') →
       run R (onRequestPatch context) w =
         (Thrown e, w', [Issued (s3_send_CopyObject command)])).
Proof.
  intros Ha Hk Hb bucket md command. split; [apply x_store_metadata|].
  split; [|split].
  - intros o Ho. rewrite (run_patch _ _ _ _ Ha Hk). subst command.
    cbn [Store.s3]. unfold Store.copyObject.
    cbn [CopyObjectCommand.CopySource CopyObjectCommand.MetadataDirective
         CopyObjectCommand.Bucket CopyObjectCommand.Key CopyObjectCommand.Metadata].
    rewrite splitSource_bucket by done. cbn [mbind option_bind]. fold bucket.
    rewrite Ho. by rewrite bool_decide_eq_true_2.
  - intros Ho. rewrite (run_patch _ _ _ _ Ha Hk). subst command.
    cbn [Store.s3]. unfold Store.copyObject.
    cbn [CopyObjectCommand.CopySource CopyObjectCommand.MetadataDirective
         CopyObjectCommand.Bucket CopyObjectCommand.Key CopyObjectCommand.Metadata].
    rewrite splitSource_bucket by done. cbn [mbind option_bind]. fold bucket.
    by rewrite Ho.
  - intros W R w w' e HR. rewrite (run_patch _ _ _ _ Ha Hk). fold bucket md command.
    by rewrite HR.
Qed.

End Routes.

(** ** The catch-all route *)

Section CatchAll.

Context (auth : Env → Request.t → bool).
Context (mime_getType : jsstring → option jsstring).
Context (Date_toUTCString : Date → jsstring).
Context (Number_toString : N → jsstring).

Local Abbreviation onRequestGet :=
  (FilenameRoute.onRequestGet auth mime_getType Date_toUTCString Number_toString).
Local Abbreviation catchAll :=
  (PathRoute.onRequestGet auth mime_getType Date_toUTCString Number_toString).

(** The route hands the read handler the decoded path as its file name,
    and the read handler decodes that name again. *)
Lemma catchAll_delegates context path :
  decodeURIComponent (stripLeadingSlashes (URL.pathname (Request.url (request context))))
    = Some path →
  catchAll context =
    onRequestGet {| request := request context; env := env context;
                    params := {| filename := path |} |}.
Proof. intros H. unfold PathRoute.onRequestGet. by rewrite H. Qed.

(** When the decoded path holds no percent sign the second decoding
    changes nothing: both routes ask for the same key. *)
Lemma catchAll_same_key context raw path :
  stripLeadingSlashes (URL.pathname (Request.url (request context))) = raw →
  decodeURIComponent raw = Some path →
  percent ∉ path →
  calledKey <$> firstCall (catchAll context) =
  calledKey <$> firstCall
    (onRequestGet {| request := request context; env := env context;
                     params := {| filename := raw |} |}).
Proof.
  intros Hraw Hd Hp. rewrite (catchAll_delegates _ path) by by rewrite Hraw.
  pose proof (decodeURIComponent_plain _ Hp) as Hd'.
  rewrite (onRequestGet_unfold _ _ _ _
             {| request := request context; env := env context;
                params := {| filename := path |} |} _ (objectKey_decoded _ _ Hd')).
  by rewrite (onRequestGet_unfold _ _ _ _
                {| request := request context; env := env context;
                   params := {| filename := raw |} |} _ (objectKey_decoded _ _ Hd)).
Qed.

(** C1, at the path [/dir/a%2525b]: the catch-all route asks storage for
    [dir/a%b], where the read handler given the same raw text as its
    file name asks for [dir/a%25b]. *)
Theorem catch_all_decodes_twice (headers : Headers.t) (body : Bytes) (e : Env) :
  let request := Request.make (URL.make (lit "/dir/a%2525b")) headers body in
  calledKey <$> firstCall
    (catchAll {| request := request; env := e; params := {| filename := [] |} |})
    = Some (lit "dir/a%b")
  ∧ calledKey <$> firstCall
      (onRequestGet {| request := request; env := e;
                       params := {| filename := lit "dir/a%2525b" |} |})
    = Some (lit "dir/a%25b").
Proof. split; reflexivity. Qed.

(** At the path [/dir/100%25] the catch-all route throws [URIError] where
    the read handler given the raw text asks for [dir/100%]. *)
Lemma catch_all_throws (headers : Headers.t) (body : Bytes) (e : Env) :
  let request := Request.make (URL.make (lit "/dir/100%25")) headers body in
  catchAll {| request := request; env := e; params := {| filename := [] |} |}
    = Throw URIError
  ∧ calledKey <$> firstCall
      (onRequestGet {| request := request; env := e;
                       params := {| filename := lit "dir/100%25" |} |})
    = Some (lit "dir/100%").
Proof. split; reflexivity. Qed.

(** C2, at the raw file name [a%2F]: GET asks storage for [a]; PUT, PATCH
    and DELETE, once authorised, address [a/]. *)
Theorem trailing_slash_keys_differ (headers : Headers.t) (body : Bytes) (e : Env) :
  let context :=
    {| request := Request.make (URL.make (lit "/a%2F")) headers body; env := e;
       params := {| filename := lit "a%2F" |} |} in
  calledKey <$> firstCall (onRequestGet context) = Some (lit "a")
  ∧ calledKey <$> firstCall (FilenameRoute.onRequestPut Sample.allow context)
    = Some (lit "a/")
  ∧ calledKey <$> firstCall (FilenameRoute.onRequestPatch Sample.allow context)
    = Some (lit "a/")
  ∧ calledKey <$> firstCall (FilenameRoute.onRequestDelete Sample.allow context)
    = Some (lit "a/").
Proof. repeat split; reflexivity. Qed.

End CatchAll.

(** ** Examples *)

Example decode_plain :
  decodeURIComponent (lit "smartdns-aarch64") = Some (lit "smartdns-aarch64").
Proof. reflexivity. Qed.

Example decode_slash : decodeURIComponent (lit "a%2Fb") = Some (lit "a/b").
Proof. reflexivity. Qed.

Example decode_percent : decodeURIComponent (lit "a%2525b") = Some (lit "a%25b").
Proof. reflexivity. Qed.

Example decode_truncated : decodeURIComponent (lit "100%") = None.
Proof. reflexivity. Qed.

Example decode_three_octets : decodeURIComponent (lit "%E4%B8%AD") = Some [20013].
Proof. reflexivity. Qed.

Example decode_four_octets :
  decodeURIComponent (lit "%F0%9F%98%80") = Some [55357; 56832].
Proof. reflexivity. Qed.

Example decode_overlong : decodeURIComponent (lit "%C0%80") = None.
Proof. reflexivity. Qed.

Example decode_surrogate : decodeURIComponent (lit "%ED%A0%80") = None.
Proof. reflexivity. Qed.

Example objectKey_double_slash :
  FilenameRoute.objectKey (lit "a//") = Some (lit "a/").
Proof. reflexivity. Qed.

(** C6, as stated, fails: a stored content type that is the empty string is
    passed on, and the served response has an empty content type. *)
Lemma content_type_can_be_empty :
  ∃ r,
    (run (scripted (Sample.storage
                      (Fulfilled (Sample.reply (Some []) (Some []) (Some (lit "e")))) 204))
       (FilenameRoute.onRequestGet Sample.allow Sample.mime Sample.utc Sample.decimal
          (Sample.context (lit "report.txt") ∅)) tt).1.1 = Returned r
    ∧ Response.status r = 200
    ∧ Headers.get (Response.headers r) (lit "content-type") = Some [].
Proof. eexists. split; [reflexivity|]. split; reflexivity. Qed.

(** C10, as stated, fails: a reply that lacks [ETag] and nothing else is
    answered with a response, not with an exception. *)
Lemma missing_etag_does_not_throw :
  ∃ r,
    (run (scripted (Sample.storage
                      (Fulfilled (Sample.reply (Some []) (Some (lit "text/html")) None)) 204))
       (FilenameRoute.onRequestGet Sample.allow Sample.mime Sample.utc Sample.decimal
          (Sample.context (lit "report.txt") ∅)) tt).1.1 = Returned r
    ∧ Response.status r = 200
    ∧ Response.body r = Stream [104; 105].
Proof. eexists. split; [reflexivity|]. split; reflexivity. Qed.


(** C7, as stated, fails: a read can end otherwise than with the 404
    response of a failed retrieval.  The name [100%] makes the read handler
    throw [URIError], and a reply without [LastModified] makes it throw
    [TypeError]. *)
Lemma get_surfaces_exceptions :
  (run (scripted (Sample.storage (Rejected (ServiceError (lit "NoSuchKey"))) 204))
     (FilenameRoute.onRequestGet Sample.allow Sample.mime Sample.utc Sample.decimal
        (Sample.context (lit "100%") ∅)) tt).1.1 = Thrown URIError
  ∧ (run (scripted (Sample.storage
                      (Fulfilled (GetObjectCommandOutput.make (Some [104; 105]) (Some [])
                                    (Some (lit "text/html")) (Some 2) None
                                    (Some (lit "e")))) 204))
       (FilenameRoute.onRequestGet Sample.allow Sample.mime Sample.utc Sample.decimal
          (Sample.context (lit "report.txt") ∅)) tt).1.1 = Thrown TypeError.
Proof. split; reflexivity. Qed.

(** ** The theorems at sample requests *)


(** A failed retrieval of [report.txt] is answered 404. *)
Lemma get_storage_failure_is_not_found_witness :
  (run (scripted (Sample.storage (Rejected (ServiceError (lit "SlowDown"))) 204))
     (FilenameRoute.onRequestGet Sample.allow Sample.mime Sample.utc Sample.decimal
        (Sample.context (lit "report.txt") ∅)) tt).1.1
  = Returned FilenameRoute.notFound.
Proof.
  destruct (get_storage_failure_is_not_found Sample.allow Sample.mime Sample.utc
              Sample.decimal
              (scripted (Sample.storage (Rejected (ServiceError (lit "SlowDown"))) 204))
              (Sample.context (lit "report.txt") ∅) (lit "report.txt")
              (ServiceError (lit "SlowDown")) tt tt)
    as [Hrun _]; [reflexivity | reflexivity |].
  by rewrite Hrun.
Defined.

(** An unauthorised PUT leaves a bucket holding a public object as it is. *)
Lemma unauthorized_mutation_touches_nothing_witness :
  run (Store.s3 0%Z (λ _, lit "e"))
    (FilenameRoute.onRequestPut Sample.deny (Sample.context (lit "report.txt") ∅))
    {[ (lit "files", lit "report.txt") :=
         {| Store.content := [104; 105];
            Store.metadata := [(lit "x-store-visibility", lit "public")] |} ]}
  = (Returned FilenameRoute.unauthorized,
     {[ (lit "files", lit "report.txt") :=
          {| Store.content := [104; 105];
             Store.metadata := [(lit "x-store-visibility", lit "public")] |} ]},
     []).
Proof.
  apply (unauthorized_mutation_touches_nothing Sample.deny (Store.s3 0%Z (λ _, lit "e"))
           (Sample.context (lit "report.txt") ∅)).
  reflexivity.
Defined.

(** DELETE answers 200 when the storage service answered 500. *)
Lemma delete_ignores_storage_status_witness :
  (run (scripted (Sample.storage (Rejected (ServiceError (lit "unused"))) 500))
     (FilenameRoute.onRequestDelete Sample.allow (Sample.context (lit "report.txt") ∅))
     tt).1.1
  = Returned (Response.make 200 (Text (lit "OK")) Headers.new).
Proof.
  apply (delete_ignores_storage_status Sample.allow
           (scripted (Sample.storage (Rejected (ServiceError (lit "unused"))) 500))
           (Sample.context (lit "report.txt") ∅) (lit "report.txt")
           {| signed := DeleteObjectCommand.make (lit "files") (lit "report.txt");
              expiresIn := 3600 |}
           {| fetchStatus := 500 |} tt tt tt); reflexivity.
Defined.

(** A stored generic type on [data.json] is served as the registered
    JSON type. *)
Lemma get_content_type_witness :
  ∃ r,
    (run (scripted (Sample.storage
                      (Fulfilled (Sample.reply (Some [])
                                    (Some FilenameRoute.octetStream)
                                    (Some (lit "e")))) 204))
       (FilenameRoute.onRequestGet Sample.allow Sample.mime Sample.utc Sample.decimal
          (Sample.context (lit "data.json") ∅)) tt).1.1 = Returned r
    ∧ Headers.get (Response.headers r) (lit "content-type")
      = Some (lit "application/json").
Proof.
  eexists. split; [vm_compute; reflexivity|].
  match goal with
  | |- Headers.get (Response.headers ?r) _ = _ =>
      destruct (get_content_type Sample.allow Sample.mime Sample.utc Sample.decimal
                  (scripted (Sample.storage
                               (Fulfilled (Sample.reply (Some [])
                                             (Some FilenameRoute.octetStream)
                                             (Some (lit "e")))) 204))
                  (Sample.context (lit "data.json") ∅) (lit "data.json")
                  (Sample.reply (Some []) (Some FilenameRoute.octetStream)
                     (Some (lit "e")))
                  [] r tt tt)
        as (_ & Hgeneric & _);
        [reflexivity | reflexivity | reflexivity | reflexivity | reflexivity |]
  end.
  destruct Hgeneric as [Hfound _]; [discriminate | reflexivity |].
  rewrite (Hfound 97 (lit "pplication/json")); reflexivity.
Defined.

(** A reply without [LastModified] makes the read handler throw. *)
Lemma get_incomplete_reply_witness :
  (run (scripted (Sample.storage
                    (Fulfilled (GetObjectCommandOutput.make (Some [104; 105]) (Some [])
                                  (Some (lit "text/html")) (Some 2) None
                                  (Some (lit "e")))) 204))
     (FilenameRoute.onRequestGet Sample.allow Sample.mime Sample.utc Sample.decimal
        (Sample.context (lit "report.txt") ∅)) tt).1.1
  = Thrown TypeError.
Proof.
  destruct (get_incomplete_reply Sample.allow Sample.mime Sample.utc Sample.decimal
              (scripted (Sample.storage
                           (Fulfilled (GetObjectCommandOutput.make (Some [104; 105])
                                         (Some []) (Some (lit "text/html")) (Some 2) None
                                         (Some (lit "e")))) 204))
              (Sample.context (lit "report.txt") ∅) (lit "report.txt")
              (GetObjectCommandOutput.make (Some [104; 105]) (Some [])
                 (Some (lit "text/html")) (Some 2) None (Some (lit "e")))
              tt tt)
    as [Hthrow _]; [reflexivity | reflexivity |].
  apply Hthrow. right. right. reflexivity.
Defined.

(** PUT with [a] and [b], then PATCH with [c]: the object keeps its bytes
    and holds [c] alone. *)
Lemma patch_replaces_metadata_witness :
  (run (Store.s3 0%Z (λ _, lit "e"))
     (FilenameRoute.onRequestPatch Sample.allow
        (Sample.context (lit "report.txt")
           {[ lit "x-store-c" := lit "3"; lit "accept" := lit "*/*" ]}))
     {[ (lit "files", lit "report.txt") :=
          {| Store.content := [104; 105];
             Store.metadata := [(lit "x-store-a", lit "1"); (lit "x-store-b", lit "2")] |} ]}).1
  = (Returned FilenameRoute.ok,
     {[ (lit "files", lit "report.txt") :=
          {| Store.content := [104; 105];
             Store.metadata := [(lit "x-store-c", lit "3")] |} ]}).
Proof.
  destruct (patch_replaces_metadata Sample.allow 0%Z (λ _, lit "e")
              (Sample.context (lit "report.txt")
                 {[ lit "x-store-c" := lit "3"; lit "accept" := lit "*/*" ]})
              (lit "report.txt")
              {[ (lit "files", lit "report.txt") :=
                   {| Store.content := [104; 105];
                      Store.metadata :=
                        [(lit "x-store-a", lit "1"); (lit "x-store-b", lit "2")] |} ]})
    as (_ & Hfound & _); [reflexivity | reflexivity | |].
  - apply (bool_decide_unpack _). vm_compute. exact I.
  - rewrite (Hfound {| Store.content := [104; 105];
                       Store.metadata :=
                         [(lit "x-store-a", lit "1"); (lit "x-store-b", lit "2")] |});
      [|reflexivity].
    vm_compute. reflexivity.
Defined.

(** * Further properties of the handlers *)

(** ** Keys *)

Lemma startsWith_nil (s : jsstring) : startsWith s [] = true.
Proof. by destruct s. Qed.

Lemma endsWith_slash_snoc (d : jsstring) : endsWith (d ++ [slash]) (lit "/") = true.
Proof.
  unfold endsWith. rewrite reverse_snoc. change (reverse (lit "/")) with [slash].
  cbn [startsWith]. by rewrite N.eqb_refl, startsWith_nil.
Qed.

Lemma endsWith_slash_inv (d : jsstring) :
  endsWith d (lit "/") = true → ∃ d', d = d' ++ [slash].
Proof.
  destruct d as [|c d _] using rev_ind; [done|].
  unfold endsWith. rewrite reverse_snoc. change (reverse (lit "/")) with [slash].
  cbn [startsWith]. destruct (N.eqb_spec c slash) as [->|]; [|done]. by exists d.
Qed.

Lemma objectKey_snoc_slash (k d : jsstring) :
  decodeURIComponent k = Some (d ++ [slash]) → FilenameRoute.objectKey k = Some d.
Proof.
  intros H. rewrite (objectKey_decoded _ _ H), endsWith_slash_snoc.
  f_equal. rewrite length_app. simpl.
  replace (length d + 1 - 1)%nat with (length d) by lia. apply take_app_length.
Qed.

(** X11: when the decoded name ends in a slash the read handler asks for it
    without that one slash, whatever comes before it. *)
Theorem objectKey_strips_one_slash (k d : jsstring) :
  decodeURIComponent k = Some (d ++ [slash]) → FilenameRoute.objectKey k = Some d.
Proof. apply objectKey_snoc_slash. Qed.

Lemma objectKey_strips_one_slash_witness :
  FilenameRoute.objectKey (lit "dir%2F%2F") = Some (lit "dir/").
Proof. apply (objectKey_strips_one_slash (lit "dir%2F%2F") (lit "dir/")). reflexivity. Defined.

Lemma objectKey_empty (k : jsstring) :
  FilenameRoute.objectKey k = Some []
  ↔ decodeURIComponent k = Some [] ∨ decodeURIComponent k = Some [slash].
Proof.
  split.
  - unfold FilenameRoute.objectKey.
    destruct (decodeURIComponent k) as [d|]; [|done]. simpl.
    destruct (endsWith d (lit "/")) eqn:Ed.
    + apply endsWith_slash_inv in Ed as [d' ->]. rewrite slice_drop_last.
      rewrite length_app. simpl.
      replace (length d' + 1 - 1)%nat with (length d') by lia.
      rewrite take_app_length. intros [= ->]. by right.
    + intros [= ->]. by left.
  - intros [H|H].
    + by rewrite (objectKey_decoded _ _ H).
    + by rewrite (objectKey_snoc_slash k []).
Qed.

Section Further.

Context (auth : Env → Request.t → bool).
Context (mime_getType : jsstring → option jsstring).
Context (Date_toUTCString : Date → jsstring).
Context (Number_toString : N → jsstring).

Local Abbreviation onRequestGet :=
  (FilenameRoute.onRequestGet auth mime_getType Date_toUTCString Number_toString).
Local Abbreviation respond :=
  (FilenameRoute.respond auth mime_getType Date_toUTCString Number_toString).
Local Abbreviation onRequestPut := (FilenameRoute.onRequestPut auth).
Local Abbreviation onRequestPatch := (FilenameRoute.onRequestPatch auth).
Local Abbreviation onRequestDelete := (FilenameRoute.onRequestDelete auth).
Local Abbreviation catchAll :=
  (PathRoute.onRequestGet auth mime_getType Date_toUTCString Number_toString).

Implicit Types context : EventContext.

Implicit Types key : jsstring.
Implicit Types response : GetObjectCommandOutput.t.
Implicit Types md : list (jsstring * jsstring).
Implicit Types size : N.
Implicit Types modified : Date.

Local Abbreviation headersAtGate :=
  (FilenameRoute.headersAtGate mime_getType Date_toUTCString Number_toString).

Lemma firstCall_get context :
  firstCall (onRequestGet context) =
    key ← FilenameRoute.objectKey (filename (params context));
    Some (Issued (s3_send_GetObject (GetObjectCommand.make (BUCKET (env context)) key))).
Proof.
  unfold FilenameRoute.onRequestGet.
  by destruct (FilenameRoute.objectKey (filename (params context))).
Qed.

Lemma firstCall_mutating context d :
  auth (env context) (request context) = true →
  decodeURIComponent (filename (params context)) = Some d →
  calledKey <$> firstCall (onRequestPut context) = Some d
  ∧ calledKey <$> firstCall (onRequestPatch context) = Some d
  ∧ calledKey <$> firstCall (onRequestDelete context) = Some d.
Proof.
  intros Ha Hd.
  unfold FilenameRoute.onRequestPut, FilenameRoute.onRequestPatch,
    FilenameRoute.onRequestDelete.
  by rewrite Ha, Hd.
Qed.

(** X10: for a name that decodes to [d], an authorised PUT, PATCH and
    DELETE address [d]; GET asks for the same key exactly when [d] does not
    end in a slash. *)
Theorem handlers_address_same_key context d :
  auth (env context) (request context) = true →
  decodeURIComponent (filename (params context)) = Some d →
  calledKey <$> firstCall (onRequestPut context) = Some d
  ∧ calledKey <$> firstCall (onRequestPatch context) = Some d
  ∧ calledKey <$> firstCall (onRequestDelete context) = Some d
  ∧ (calledKey <$> firstCall (onRequestGet context) = Some d
     ↔ endsWith d (lit "/") = false).
Proof.
  intros Ha Hd. destruct (firstCall_mutating _ _ Ha Hd) as (H1 & H2 & H3).
  repeat (split; [done|]).
  rewrite firstCall_get, <- (objectKey_is_decoded _ _ Hd).
  destruct (FilenameRoute.objectKey (filename (params context))) as [key|]; simpl.
  - split; intros [= ->]; done.
  - done.
Qed.

(** X12: the read handler does not refuse an empty key: it asks storage
    for the key [""] exactly when the name decodes to the empty string or to
    a single slash. *)
Theorem get_empty_key context :
  firstCall (onRequestGet context)
    = Some (Issued (s3_send_GetObject (GetObjectCommand.make (BUCKET (env context)) [])))
  ↔ decodeURIComponent (filename (params context)) = Some []
    ∨ decodeURIComponent (filename (params context)) = Some [slash].
Proof.
  rewrite firstCall_get, <- objectKey_empty.
  destruct (FilenameRoute.objectKey (filename (params context))) as [key|]; simpl.
  - split; [intros [= <-] | intros [= ->]]; done.
  - done.
Qed.

(** ** In any environment *)

Section Anywhere.

Context {W : Type} (R : responder W).
Implicit Types w : W.

(** Handling the storage reply issues no call. *)
Lemma run_respond context key response w :
  ∃ o, run R (respond context key response) w = (o, w, []).
Proof.
  destruct (respond_outcome auth mime_getType Date_toUTCString Number_toString R
              context key response w) as (o & Ho & _).
  by exists o.
Qed.

(** X1: a name with a malformed escape makes every handler throw
    [URIError] before any call is issued (the writing handlers once the
    caller is authorised); such a name holds a percent sign. *)
Theorem malformed_name_throws context w :
  decodeURIComponent (filename (params context)) = None →
  run R (onRequestGet context) w = (Thrown URIError, w, [])
  ∧ (auth (env context) (request context) = true →
       run R (onRequestPut context) w = (Thrown URIError, w, [])
       ∧ run R (onRequestPatch context) w = (Thrown URIError, w, [])
       ∧ run R (onRequestDelete context) w = (Thrown URIError, w, []))
  ∧ percent ∈ filename (params context).
Proof.
  intros Hd. split; [|split].
  - rewrite onRequestGet_malformed; [done|].
    unfold FilenameRoute.objectKey. by rewrite Hd.
  - intros Ha.
    unfold FilenameRoute.onRequestPut, FilenameRoute.onRequestPatch,
      FilenameRoute.onRequestDelete.
    by rewrite Ha, Hd.
  - destruct (decide (percent ∈ filename (params context))) as [|Hn]; [done|].
    by rewrite decodeURIComponent_plain in Hd.
Qed.

(** X2: an authorised PUT issues one upload, to the decoded name, of the
    request body, with exactly the request's [x-store-] headers as
    metadata, four parts at a time of 5 MiB each, parts not kept on error;
    it answers 200 "OK" when the upload is fulfilled and throws the error
    of a rejected upload. *)
Theorem put_uploads_body_and_metadata context key w :
  auth (env context) (request context) = true →
  decodeURIComponent (filename (params context)) = Some key →
  ∃ u,
    Upload.Bucket u = BUCKET (env context) ∧ Upload.Key u = key
    ∧ Upload.Body u = Request.body (request context)
    ∧ (∀ k v, Object.get (Upload.Metadata u) k = Some v
              ↔ Request.headers (request context) !! k = Some v
                ∧ startsWith k (lit "x-store-") = true)
    ∧ Upload.queueSize u = 4 ∧ Upload.partSize u = 5242880
    ∧ Upload.leavePartsOnError u = false
    ∧ (∀ w', R _ (Upload_done u) w = (Fulfilled (), w') →
         run R (onRequestPut context) w
           = (Returned FilenameRoute.ok, w', [Issued (Upload_done u)]))
    ∧ (∀ e w', R _ (Upload_done u) w = (Rejected e, w') →
         run R (onRequestPut context) w = (Thrown e, w', [Issued (Upload_done u)])).
Proof.
  intros Ha Hk.
  exists (Upload.make (BUCKET (env context)) key (Request.body (request context))
            (Object.fromEntries (FilenameRoute.x_store_headers (request context)))
            4 (1024 * 1024 * 5) false).
  repeat (split; [reflexivity|]).
  split; [apply x_store_metadata|]. repeat (split; [reflexivity|]).
  split; intros; rewrite (run_put _ _ _ _ _ Ha Hk); cbn zeta;
    match goal with H : R _ _ _ = _ |- _ => by rewrite H end.
Qed.

(** X6: DELETE throws when signing the request is rejected, without
    fetching anything, and throws when the fetch itself is rejected. *)
Theorem delete_failures_propagate context key w :
  auth (env context) (request context) = true →
  decodeURIComponent (filename (params context)) = Some key →
  let sign := getSignedUrl (DeleteObjectCommand.make (BUCKET (env context)) key) 3600 in
  (∀ e w1, R _ sign w = (Rejected e, w1) →
     run R (onRequestDelete context) w = (Thrown e, w1, [Issued sign]))
  ∧ (∀ url e w1 w2,
       R _ sign w = (Fulfilled url, w1) →
       R _ (fetch url (lit "DELETE")) w1 = (Rejected e, w2) →
       run R (onRequestDelete context) w
         = (Thrown e, w2, [Issued sign; Issued (fetch url (lit "DELETE"))])).
Proof.
  intros Ha Hk sign. subst sign. split.
  - intros e w1 Hs. unfold FilenameRoute.onRequestDelete. rewrite Ha, Hk.
    cbn -[lit]. by rewrite Hs.
  - intros url e w1 w2 Hs Hf. unfold FilenameRoute.onRequestDelete. rewrite Ha, Hk.
    cbn -[lit]. rewrite Hs. cbn -[lit]. by rewrite Hf.
Qed.

(** X9: no handler issues a call that is not its own: GET at most one
    retrieval, PUT at most one upload, PATCH at most one copy, DELETE at
    most one signing followed by at most one fetch with method DELETE. *)
Theorem handlers_issue_only_their_call context w :
  ((run R (onRequestGet context) w).2 = []
   ∨ ∃ key, FilenameRoute.objectKey (filename (params context)) = Some key
            ∧ (run R (onRequestGet context) w).2
              = [Issued (s3_send_GetObject
                           (GetObjectCommand.make (BUCKET (env context)) key))])
  ∧ ((run R (onRequestPut context) w).2 = []
     ∨ ∃ u, (run R (onRequestPut context) w).2 = [Issued (Upload_done u)])
  ∧ ((run R (onRequestPatch context) w).2 = []
     ∨ ∃ c, (run R (onRequestPatch context) w).2 = [Issued (s3_send_CopyObject c)])
  ∧ ((run R (onRequestDelete context) w).2 = []
     ∨ (∃ c, (run R (onRequestDelete context) w).2 = [Issued (getSignedUrl c 3600)])
     ∨ ∃ c url, (run R (onRequestDelete context) w).2
                = [Issued (getSignedUrl c 3600); Issued (fetch url (lit "DELETE"))]).
Proof.
  split; [|destruct (auth (env context) (request context)) eqn:Ha].
  - destruct (FilenameRoute.objectKey (filename (params context))) as [key|] eqn:Hk.
    2: { left. by rewrite (onRequestGet_malformed _ _ _ _ _ Hk). }
    right. exists key. split; [done|].
    destruct (R _ (s3_send_GetObject
                     (GetObjectCommand.make (BUCKET (env context)) key)) w)
      as [[response|e] w'] eqn:HR.
    + rewrite (run_get_fulfilled _ _ _ _ _ _ _ _ _ _ Hk HR).
      destruct (run_respond context key response w') as [o Ho]. by rewrite Ho.
    + by rewrite (run_get_rejected _ _ _ _ _ _ _ _ _ _ Hk HR).
  - destruct (decodeURIComponent (filename (params context))) as [key|] eqn:Hk.
    + split; [|split].
      * right. eexists. by rewrite (run_put _ _ _ _ _ Ha Hk).
      * right. eexists. by rewrite (run_patch _ _ _ _ _ Ha Hk).
      * unfold FilenameRoute.onRequestDelete. rewrite Ha, Hk. cbn -[lit].
        destruct (R _ _ w) as [[url|e] w1]; cbn -[lit].
        -- right. right. eexists _, url. by destruct (R _ _ w1) as [[rep|e] w2].
        -- right. left. by eexists.
    + unfold FilenameRoute.onRequestPut, FilenameRoute.onRequestPatch,
        FilenameRoute.onRequestDelete.
      rewrite Ha, Hk. repeat split; by left.
  - destruct (run_unauthorized auth R context w Ha) as (-> & -> & ->).
    repeat split; by left.
Qed.

(** *** The headers of a served response *)

Lemma served_response context key response md size modified r w w' :
  FilenameRoute.objectKey (filename (params context)) = Some key →
  R _ (s3_send_GetObject (GetObjectCommand.make (BUCKET (env context)) key)) w
    = (Fulfilled response, w') →
  GetObjectCommandOutput.Metadata response = Some md →
  GetObjectCommandOutput.ContentLength response = Some size →
  GetObjectCommandOutput.LastModified response = Some modified →
  (run R (onRequestGet context) w).1.1 = Returned r →
  Response.status r = 200 →
  ∃ (body : Bytes) (h h' : gmap jsstring jsstring),
    GetObjectCommandOutput.Body response = Some body
    ∧ headersAtGate key response md size modified = Some h
    ∧ Headers.set h (lit "content-disposition") (FilenameRoute.disposition key) = Some h'
    ∧ r = Response.make 200 (Stream body) h'.
Proof.
  intros Hk HR Hm Hs Hl Hrun Hst.
  rewrite (run_get_complete _ _ _ _ _ _ _ _ _ _ _ _ _ Hk HR Hm Hs Hl) in Hrun.
  destruct (headersAtGate key response md size modified) as [h|]; [|done].
  destruct (_ && _); [by injection Hrun as <-|].
  destruct (Headers.set h _ _) as [h'|] eqn:Hd; [|done].
  destruct (GetObjectCommandOutput.Body response) as [body|]; [|done].
  injection Hrun as <-. by exists body, h, h'.
Qed.

(** X7: in a served response the length, the date, the entity tag and the
    disposition come from the storage reply and the key, also when the
    metadata has entries under these names: each is the text made from the
    reply, less the whitespace around it, and the disposition is
    [inline; filename="<key>"]. *)
Theorem get_native_headers context key response md size modified r w w' :
  FilenameRoute.objectKey (filename (params context)) = Some key →
  R _ (s3_send_GetObject (GetObjectCommand.make (BUCKET (env context)) key)) w
    = (Fulfilled response, w') →
  GetObjectCommandOutput.Metadata response = Some md →
  GetObjectCommandOutput.ContentLength response = Some size →
  GetObjectCommandOutput.LastModified response = Some modified →
  (run R (onRequestGet context) w).1.1 = Returned r →
  Response.status r = 200 →
  Headers.get (Response.headers r) (lit "content-length")
    = Some (Headers.normalize (Number_toString size))
  ∧ Headers.get (Response.headers r) (lit "last-modified")
    = Some (Headers.normalize (Date_toUTCString modified))
  ∧ Headers.get (Response.headers r) (lit "etag")
    = Some (Headers.normalize (toString (GetObjectCommandOutput.ETag response)))
  ∧ Headers.get (Response.headers r) (lit "content-disposition")
    = Some (lit "inline; filename=" ++ [34] ++ key ++ [34]).
Proof.
  intros Hk HR Hm Hs Hl Hrun Hst.
  destruct (served_response _ _ _ _ _ _ _ _ _ Hk HR Hm Hs Hl Hrun Hst)
    as (body & h & h' & _ & Hh & Hd & ->).
  destruct (served_headers _ _ _ _ _ _ _ _ _ _ Hh Hd) as (_ & H1 & H2 & H3 & H4 & _).
  done.
Qed.

(** X8: a served response carries the delivered metadata as headers, name
    for name: apart from the five names the handler sets itself, a header
    is present exactly when the metadata has it, and its value is the
    metadata value less the whitespace around it; the name asked for is
    matched without regard to case. *)
Theorem get_metadata_headers context key response md r w w' (k : jsstring) :
  FilenameRoute.objectKey (filename (params context)) = Some key →
  R _ (s3_send_GetObject (GetObjectCommand.make (BUCKET (env context)) key)) w
    = (Fulfilled response, w') →
  GetObjectCommandOutput.Metadata response = Some md →
  delivered md →
  (run R (onRequestGet context) w).1.1 = Returned r →
  Response.status r = 200 →
  Headers.validName k = true →
  toLowerCase k ∉ nativeHeaders →
  Headers.get (Response.headers r) k
    = Headers.normalize <$> Object.get md (toLowerCase k).
Proof.
  intros Hk HR Hm Hmd Hrun Hst Hname Hn.
  destruct (GetObjectCommandOutput.ContentLength response) as [size|] eqn:Hs.
  2: { rewrite (run_get_fulfilled _ _ _ _ _ _ _ _ _ _ Hk HR), respond_incomplete
         in Hrun by auto. done. }
  destruct (GetObjectCommandOutput.LastModified response) as [modified|] eqn:Hl.
  2: { rewrite (run_get_fulfilled _ _ _ _ _ _ _ _ _ _ Hk HR), respond_incomplete
         in Hrun by auto. done. }
  destruct (served_response _ _ _ _ _ _ _ _ _ Hk HR Hm Hs Hl Hrun Hst)
    as (body & h & h' & _ & Hh & Hd & ->).
  destruct (served_headers _ _ _ _ _ _ _ _ _ _ Hh Hd) as (_ & _ & _ & _ & _ & Hmeta).
  by apply Hmeta.
Qed.

(** X13: when the reply has everything but the body and its headers are
    built, a caller who is denied still gets the 404 response, and a caller
    who is let through makes the handler throw [TypeError]. *)
Theorem get_missing_body context key response md size modified w w' :
  FilenameRoute.objectKey (filename (params context)) = Some key →
  R _ (s3_send_GetObject (GetObjectCommand.make (BUCKET (env context)) key)) w
    = (Fulfilled response, w') →
  GetObjectCommandOutput.Metadata response = Some md →
  delivered md →
  GetObjectCommandOutput.ContentLength response = Some size →
  GetObjectCommandOutput.LastModified response = Some modified →
  GetObjectCommandOutput.Body response = None →
  is_Some (headersAtGate key response md size modified) →
  let public :=
    Headers.normalize <$> Object.get md (lit "x-store-visibility") = Some (lit "public") in
  (public ∨ auth (env context) (request context) = true →
     (run R (onRequestGet context) w).1.1 = Thrown TypeError)
  ∧ (¬ public → auth (env context) (request context) = false →
       (run R (onRequestGet context) w).1.1 = Returned FilenameRoute.notFound).
Proof.
  intros Hk HR Hm Hmd Hs Hl Hb [h Hh] public.
  rewrite (run_get_complete _ _ _ _ _ _ _ _ _ _ _ _ _ Hk HR Hm Hs Hl), Hh, Hb.
  rewrite (gate_visibility _ _ _ _ _ _ _ _ _ Hh Hmd). fold public. split.
  - intros [Hp | ->].
    + rewrite bool_decide_eq_true_2 by done. cbn [negb andb].
      by destruct (Headers.set h _ _).
    + rewrite andb_false_r. by destruct (Headers.set h _ _).
  - intros Hp ->. by rewrite bool_decide_eq_false_2.
Qed.

End Anywhere.

(** ** Absent or withheld *)

(** X14: to a caller without credentials, an object that is not public
    (its visibility, less the whitespace around it, is not [public]) and
    whose headers are built, and an object that cannot be retrieved, look
    the same: both requests end with the same 404 response. *)
Theorem private_object_looks_missing {W1 W2 : Type} (R1 : responder W1)
    (R2 : responder W2) context key response md size modified (e : Error)
    (w1 w1' : W1) (w2 w2' : W2) :
  FilenameRoute.objectKey (filename (params context)) = Some key →
  R1 _ (s3_send_GetObject (GetObjectCommand.make (BUCKET (env context)) key)) w1
    = (Rejected e, w1') →
  R2 _ (s3_send_GetObject (GetObjectCommand.make (BUCKET (env context)) key)) w2
    = (Fulfilled response, w2') →
  GetObjectCommandOutput.Metadata response = Some md →
  delivered md →
  GetObjectCommandOutput.ContentLength response = Some size →
  GetObjectCommandOutput.LastModified response = Some modified →
  is_Some (headersAtGate key response md size modified) →
  Headers.normalize <$> Object.get md (lit "x-store-visibility") ≠ Some (lit "public") →
  auth (env context) (request context) = false →
  (run R1 (onRequestGet context) w1).1.1 = (run R2 (onRequestGet context) w2).1.1.
Proof.
  intros Hk H1 H2 Hm Hmd Hs Hl [h Hh] Hv Ha.
  rewrite (run_get_rejected _ _ _ _ _ _ _ _ _ _ Hk H1).
  rewrite (run_get_complete _ _ _ _ _ _ _ _ _ _ _ _ _ Hk H2 Hm Hs Hl), Hh.
  rewrite (gate_visibility _ _ _ _ _ _ _ _ _ Hh Hmd).
  by rewrite Ha, bool_decide_eq_false_2.
Qed.

(** ** On the reference bucket *)

Section Bucket.

Context (now : Date) (etagOf : Bytes → jsstring).

Local Abbreviation s3 := (Store.s3 now etagOf).
Local Abbreviation presentable :=
  (presentable mime_getType Date_toUTCString Number_toString now etagOf).

Implicit Types σ : gmap (jsstring * jsstring) Store.StoredObject.
Implicit Types o : Store.StoredObject.

Lemma x_store_elem request k v :
  (k, v) ∈ FilenameRoute.x_store_headers request → Request.headers request !! k = Some v.
Proof.
  unfold FilenameRoute.x_store_headers, Headers.entries.
  rewrite list_elem_of_filter, merge_sort_Permutation, elem_of_map_to_list.
  by intros [_ ?].
Qed.

(** The metadata a write makes of a well-formed request is delivered back
    as it is and accepted as headers. *)
Lemma x_store_delivered request :
  wellFormed (Request.headers request) →
  delivered (Object.fromEntries (FilenameRoute.x_store_headers request))
  ∧ acceptableEntries (Object.fromEntries (FilenameRoute.x_store_headers request)).
Proof.
  intros Hwf. rewrite Object_fromEntries_NoDup by apply x_store_headers_NoDup.
  split; [split; [apply x_store_headers_NoDup|]|].
  - apply Forall_forall. intros k Hk.
    apply list_elem_of_fmap in Hk as ([k' v] & -> & Hin).
    apply x_store_elem in Hin. by destruct (Hwf k' v Hin) as (? & _).
  - apply Forall_forall. intros [k v] Hin. apply x_store_elem in Hin.
    destruct (Hwf k v Hin) as (_ & Hn & Hv & Hvalid). split; [done|].
    unfold acceptable. cbn [snd]. by rewrite Hv.
Qed.

Lemma wellFormed_normal request k :
  wellFormed (Request.headers request) →
  Headers.normalize <$> Request.headers request !! k = Request.headers request !! k.
Proof.
  intros Hwf. destruct (Request.headers request !! k) as [v|] eqn:E; [|done].
  destruct (Hwf k v E) as (_ & _ & Hv & _).
  change (Some (Headers.normalize v) = Some v). by rewrite Hv.
Qed.

Lemma x_store_lookup request k :
  startsWith k (lit "x-store-") = true →
  Object.get (Object.fromEntries (FilenameRoute.x_store_headers request)) k
  = Request.headers request !! k.
Proof.
  intros Hk.
  destruct (Object.get _ k) as [v|] eqn:E1.
  - apply x_store_metadata in E1 as [E1 _]. by rewrite E1.
  - destruct (Request.headers request !! k) as [v|] eqn:E2; [|done].
    exfalso.
    assert (Object.get (Object.fromEntries (FilenameRoute.x_store_headers request)) k
            = Some v) as E3 by by apply x_store_metadata.
    by rewrite E1 in E3.
Qed.

Lemma x_store_not_native k :
  toLowerCase k = k → startsWith k (lit "x-store-") = true →
  toLowerCase k ∉ nativeHeaders.
Proof.
  intros -> Hk Hin. unfold nativeHeaders in Hin.
  repeat (apply elem_of_cons in Hin as [-> | Hin]; [by vm_compute in Hk|]).
  by apply elem_of_nil in Hin.
Qed.

(** The headers of a presentable stored object are built. *)
Lemma stored_headers key o :
  acceptableEntries (Store.metadata o) →
  presentable key (Store.content o) →
  is_Some (headersAtGate key (Store.describe now etagOf o) (Store.metadata o)
             (N.of_nat (length (Store.content o))) now).
Proof.
  intros Hmd (_ & Hmime & Hsize & Hdate & Htag).
  apply headersAtGate_accepted; try done.
  unfold FilenameRoute.contentType. cbn [Store.describe GetObjectCommandOutput.ContentType].
  rewrite bool_decide_eq_true_2 by done. cbn [negb toString default id].
  destruct (mime_getType key) as [[|c t]|] eqn:Hg; cbn [orElse]; [done | | done].
  by apply Hmime.
Qed.

(** A read of a presentable stored object. *)
Lemma get_stored_gate context key o σ :
  FilenameRoute.objectKey (filename (params context)) = Some key →
  σ !! (BUCKET (env context), key) = Some o →
  delivered (Store.metadata o) →
  acceptableEntries (Store.metadata o) →
  presentable key (Store.content o) →
  ∃ h' : gmap jsstring jsstring,
    (∀ k, toLowerCase k ∉ nativeHeaders →
          Headers.get h' k
          = Headers.normalize <$> Object.get (Store.metadata o) (toLowerCase k))
    ∧ (run s3 (onRequestGet context) σ).1.1 =
        if negb (bool_decide
                   (Headers.normalize
                      <$> Object.get (Store.metadata o) (lit "x-store-visibility")
                    = Some (lit "public")))
           && negb (auth (env context) (request context))
        then Returned FilenameRoute.notFound
        else Returned (Response.make 200 (Stream (Store.content o)) h').
Proof.
  intros Hk Ho Hmd Hacc Hp.
  assert (s3 _ (s3_send_GetObject (GetObjectCommand.make (BUCKET (env context)) key)) σ
          = (Fulfilled (Store.describe now etagOf o), σ)) as HR.
  { cbn [Store.s3]. unfold Store.getObject.
    cbn [GetObjectCommand.Bucket GetObjectCommand.Key]. by rewrite Ho. }
  destruct (stored_headers key o Hacc Hp) as [h Hh].
  assert (Headers.set h (lit "content-disposition") (FilenameRoute.disposition key)
          = Some (<[toLowerCase (lit "content-disposition")
                    := Headers.normalize (FilenameRoute.disposition key)]> h)) as Hd.
  { apply Headers_set_accepted; [done|]. apply disposition_acceptable. by destruct Hp. }
  eexists. split.
  - by destruct (served_headers _ _ _ _ _ _ _ _ _ _ Hh Hd) as (_ & _ & _ & _ & _ & Hmeta);
      apply Hmeta.
  - rewrite (run_get_complete _ _ _ _ _ _ _ _ _ _ _ _ _ Hk HR eq_refl eq_refl eq_refl).
    rewrite Hh, Hd. by rewrite (gate_visibility _ _ _ _ _ _ _ _ _ Hh Hmd).
Qed.

(** X17: the visibility sent with a PUT decides who may read the object
    afterwards, for a name whose decoding has no final slash and an object
    the read handler can present: a GET of the name is answered 404 when the
    PUT did not send [x-store-visibility: public] and the reader has no
    credentials; when the PUT sent it or the reader has credentials, the GET
    returns the bytes that were sent. *)
Theorem put_visibility_then_get cput cget (d : jsstring) σ :
  auth (env cput) (request cput) = true →
  decodeURIComponent (filename (params cput)) = Some d →
  endsWith d (lit "/") = false →
  wellFormed (Request.headers (request cput)) →
  presentable d (Request.body (request cput)) →
  env cget = env cput →
  filename (params cget) = filename (params cput) →
  let public :=
    Request.headers (request cput) !! lit "x-store-visibility" = Some (lit "public") in
  let result :=
    (run s3 (onRequestGet cget) (run s3 (onRequestPut cput) σ).1.2).1.1 in
  (¬ public ∧ auth (env cget) (request cget) = false →
     result = Returned FilenameRoute.notFound)
  ∧ (public ∨ auth (env cget) (request cget) = true →
       ∃ r, result = Returned r ∧ Response.status r = 200
            ∧ Response.body r = Stream (Request.body (request cput))).
Proof.
  intros Ha Hd Hs Hwf Hp He Hf public result. subst result.
  rewrite (run_put _ _ _ _ _ Ha Hd). cbn [Store.s3 Store.upload fst snd].
  cbn [Upload.Bucket Upload.Key Upload.Body Upload.Metadata].
  destruct (x_store_delivered _ Hwf) as [Hmd Hacc].
  destruct (get_stored_gate cget d
              {| Store.content := Request.body (request cput);
                 Store.metadata :=
                   Object.fromEntries (FilenameRoute.x_store_headers (request cput)) |}
              (<[(BUCKET (env cput), d) :=
                   {| Store.content := Request.body (request cput);
                      Store.metadata :=
                        Object.fromEntries
                          (FilenameRoute.x_store_headers (request cput)) |}]> σ))
    as (h' & _ & ->); try done.
  - rewrite Hf. by apply objectKey_is_decoded.
  - rewrite He. apply lookup_insert_eq.
  - cbn [Store.metadata Store.content].
    rewrite x_store_lookup by reflexivity. rewrite wellFormed_normal by done.
    fold public. split.
    + intros [Hpub ->]. by rewrite bool_decide_eq_false_2.
    + intros [Hpub | ->].
      * rewrite bool_decide_eq_true_2 by done. by eexists.
      * rewrite andb_false_r. by eexists.
Qed.

(** X3: after an authorised PUT of a name whose decoding has no final
    slash, for an object the read handler can present, a GET of that name
    by a caller who is let through returns the bytes that were sent, and
    shows every [x-store-] header of the PUT request and no other. *)
Theorem put_then_get cput cget (d : jsstring) σ :
  auth (env cput) (request cput) = true →
  decodeURIComponent (filename (params cput)) = Some d →
  endsWith d (lit "/") = false →
  wellFormed (Request.headers (request cput)) →
  presentable d (Request.body (request cput)) →
  env cget = env cput →
  filename (params cget) = filename (params cput) →
  auth (env cget) (request cget) = true →
  (run s3 (onRequestPut cput) σ).1.1 = Returned FilenameRoute.ok
  ∧ ∃ r, (run s3 (onRequestGet cget) (run s3 (onRequestPut cput) σ).1.2).1.1 = Returned r
         ∧ Response.status r = 200
         ∧ Response.body r = Stream (Request.body (request cput))
         ∧ ∀ k, Headers.validName k = true → toLowerCase k = k →
                startsWith k (lit "x-store-") = true →
                Headers.get (Response.headers r) k = Request.headers (request cput) !! k.
Proof.
  intros Ha Hd Hs Hwf Hp He Hf Hg.
  rewrite (run_put _ _ _ _ _ Ha Hd). cbn [Store.s3 Store.upload fst snd].
  split; [done|].
  cbn [Upload.Bucket Upload.Key Upload.Body Upload.Metadata].
  destruct (x_store_delivered _ Hwf) as [Hmd Hacc].
  destruct (get_stored_gate cget d
              {| Store.content := Request.body (request cput);
                 Store.metadata :=
                   Object.fromEntries (FilenameRoute.x_store_headers (request cput)) |}
              (<[(BUCKET (env cput), d) :=
                   {| Store.content := Request.body (request cput);
                      Store.metadata :=
                        Object.fromEntries
                          (FilenameRoute.x_store_headers (request cput)) |}]> σ))
    as (h' & Hh & ->); try done.
  - rewrite Hf. by apply objectKey_is_decoded.
  - rewrite He. apply lookup_insert_eq.
  - rewrite Hg, andb_false_r. eexists. repeat (split; [done|]).
    intros k _ Hk Hx. cbn [Response.headers Store.metadata] in *.
    rewrite Hh by by apply x_store_not_native.
    rewrite Hk, x_store_lookup by done. by apply wellFormed_normal.
Qed.

Lemma run_patch_stored context d o σ :
  auth (env context) (request context) = true →
  decodeURIComponent (filename (params context)) = Some d →
  slash ∉ BUCKET (env context) →
  σ !! (BUCKET (env context), d) = Some o →
  (run s3 (onRequestPatch context) σ).1 =
    (Returned FilenameRoute.ok,
     <[(BUCKET (env context), d) :=
         {| Store.content := Store.content o;
            Store.metadata :=
              Object.fromEntries (FilenameRoute.x_store_headers (request context)) |}]> σ).
Proof.
  intros Ha Hd Hb Ho. rewrite (run_patch _ _ _ _ _ Ha Hd).
  cbn [Store.s3]. unfold Store.copyObject.
  cbn [CopyObjectCommand.CopySource CopyObjectCommand.MetadataDirective
       CopyObjectCommand.Bucket CopyObjectCommand.Key CopyObjectCommand.Metadata].
  rewrite splitSource_bucket by done. cbn [mbind option_bind].
  rewrite Ho. by rewrite bool_decide_eq_true_2.
Qed.

(** X4: after an authorised PATCH of a stored object that the read handler
    can present, a GET of the same name returns the bytes the object had,
    and its [x-store-] headers are those of the PATCH request alone: a
    header of the earlier metadata that the PATCH did not send is gone. *)
Theorem patch_then_get cpatch cget (d : jsstring) o σ :
  auth (env cpatch) (request cpatch) = true →
  decodeURIComponent (filename (params cpatch)) = Some d →
  endsWith d (lit "/") = false →
  slash ∉ BUCKET (env cpatch) →
  σ !! (BUCKET (env cpatch), d) = Some o →
  wellFormed (Request.headers (request cpatch)) →
  presentable d (Store.content o) →
  env cget = env cpatch →
  filename (params cget) = filename (params cpatch) →
  auth (env cget) (request cget) = true →
  ∃ r, (run s3 (onRequestGet cget) (run s3 (onRequestPatch cpatch) σ).1.2).1.1 = Returned r
       ∧ Response.status r = 200
       ∧ Response.body r = Stream (Store.content o)
       ∧ ∀ k, Headers.validName k = true → toLowerCase k = k →
              startsWith k (lit "x-store-") = true →
              Headers.get (Response.headers r) k = Request.headers (request cpatch) !! k.
Proof.
  intros Ha Hd Hs Hb Ho Hwf Hp He Hf Hg.
  rewrite (run_patch_stored _ _ _ _ Ha Hd Hb Ho). cbn [snd].
  destruct (x_store_delivered _ Hwf) as [Hmd Hacc].
  destruct (get_stored_gate cget d
              {| Store.content := Store.content o;
                 Store.metadata :=
                   Object.fromEntries (FilenameRoute.x_store_headers (request cpatch)) |}
              (<[(BUCKET (env cpatch), d) :=
                   {| Store.content := Store.content o;
                      Store.metadata :=
                        Object.fromEntries
                          (FilenameRoute.x_store_headers (request cpatch)) |}]> σ))
    as (h' & Hh & ->); try done.
  - rewrite Hf. by apply objectKey_is_decoded.
  - rewrite He. apply lookup_insert_eq.
  - rewrite Hg, andb_false_r. eexists. repeat (split; [done|]).
    intros k _ Hk Hx. cbn [Response.headers Store.metadata] in *.
    rewrite Hh by by apply x_store_not_native.
    rewrite Hk, x_store_lookup by done. by apply wellFormed_normal.
Qed.

(** X5: an authorised DELETE of a name whose decoding has no final slash
    answers 200 and removes the object; a GET of that name afterwards is
    answered 404 whoever asks; deleting a key that is not there answers 200
    as well and leaves the bucket as it was. *)
Theorem delete_then_get cdel cget d σ :
  auth (env cdel) (request cdel) = true →
  decodeURIComponent (filename (params cdel)) = Some d →
  endsWith d (lit "/") = false →
  env cget = env cdel →
  filename (params cget) = filename (params cdel) →
  (run s3 (onRequestDelete cdel) σ).1
    = (Returned FilenameRoute.ok, delete (BUCKET (env cdel), d) σ)
  ∧ (run s3 (onRequestGet cget) (delete (BUCKET (env cdel), d) σ)).1.1
    = Returned FilenameRoute.notFound
  ∧ (σ !! (BUCKET (env cdel), d) = None →
       (run s3 (onRequestDelete cdel) σ).1 = (Returned FilenameRoute.ok, σ)).
Proof.
  intros Ha Hd Hs He Hf.
  assert ((run s3 (onRequestDelete cdel) σ).1
          = (Returned FilenameRoute.ok, delete (BUCKET (env cdel), d) σ)) as Hdel.
  { unfold FilenameRoute.onRequestDelete. rewrite Ha, Hd. reflexivity. }
  split; [done|]. split.
  - assert (FilenameRoute.objectKey (filename (params cget)) = Some d) as Hk.
    { rewrite Hf. by apply objectKey_is_decoded. }
    rewrite (run_get_rejected _ _ _ _ s3 cget d Store.noSuchKey
               (delete (BUCKET (env cdel), d) σ) (delete (BUCKET (env cdel), d) σ) Hk);
      [done|].
    cbn [Store.s3]. unfold Store.getObject.
    cbn [GetObjectCommand.Bucket GetObjectCommand.Key].
    by rewrite He, lookup_delete_eq.
  - intros Ho. by rewrite Hdel, delete_id.
Qed.

End Bucket.

(** ** The catch-all route, in general *)

Lemma stripLeadingSlashes_replicate (n : nat) (p : jsstring) :
  head p ≠ Some slash → stripLeadingSlashes (replicate n slash ++ p) = p.
Proof.
  intros Hp. induction n as [|n IH]; simpl.
  - destruct p as [|c p]; [done|]. simpl.
    destruct (N.eqb_spec c slash) as [->|]; done.
  - done.
Qed.

(** X15: for a path without a percent sign the catch-all route is the
    read handler run on the path less its leading slashes. *)
Theorem catch_all_plain_path context :
  percent ∉ stripLeadingSlashes (URL.pathname (Request.url (request context))) →
  catchAll context =
    onRequestGet
      {| request := request context; env := env context;
         params := {| filename :=
                        stripLeadingSlashes (URL.pathname (Request.url (request context))) |} |}.
Proof.
  intros Hp. apply catchAll_delegates. by apply decodeURIComponent_plain.
Qed.

(** X16: the catch-all route drops every leading slash, decodes the rest of
    the path as one string, and asks storage for the key the read handler
    makes of the result (a second decoding, less one final slash); the
    parameters it was called with play no part. *)
Theorem catch_all_key context (n : nat) (p : jsstring) :
  URL.pathname (Request.url (request context)) = replicate n slash ++ p →
  head p ≠ Some slash →
  calledKey <$> firstCall (catchAll context)
  = decodeURIComponent p ≫= FilenameRoute.objectKey.
Proof.
  intros Hpath Hp. unfold PathRoute.onRequestGet.
  rewrite Hpath, stripLeadingSlashes_replicate by done.
  destruct (decodeURIComponent p) as [path|]; [|done].
  cbn [orThrow mbind prog_bind bind option_bind]. unfold PathRoute.fileHandler.
  rewrite firstCall_get. cbn [params filename].
  by destruct (FilenameRoute.objectKey path).
Qed.

End Further.

(** ** The further properties at sample requests *)

Lemma malformed_name_throws_witness :
  run (scripted (Sample.storage (Rejected (ServiceError (lit "unused"))) 204))
    (FilenameRoute.onRequestGet Sample.allow Sample.mime Sample.utc Sample.decimal
       (Sample.context (lit "100%") ∅)) tt
  = (Thrown URIError, tt, []).
Proof.
  destruct (malformed_name_throws Sample.allow Sample.mime Sample.utc Sample.decimal
              (scripted (Sample.storage (Rejected (ServiceError (lit "unused"))) 204))
              (Sample.context (lit "100%") ∅) tt)
    as [Hget _]; [reflexivity|].
  exact Hget.
Defined.

Lemma put_uploads_body_and_metadata_witness :
  ∃ u,
    Upload.Key u = lit "a b.txt"
    ∧ run (scripted (Sample.storage (Rejected (ServiceError (lit "unused"))) 204))
        (FilenameRoute.onRequestPut Sample.allow (Sample.context (lit "a%20b.txt") ∅)) tt
      = (Returned FilenameRoute.ok, tt, [Issued (Upload_done u)]).
Proof.
  destruct (put_uploads_body_and_metadata Sample.allow
              (scripted (Sample.storage (Rejected (ServiceError (lit "unused"))) 204))
              (Sample.context (lit "a%20b.txt") ∅) (lit "a b.txt") tt)
    as (u & _ & Hkey & _ & _ & _ & _ & _ & Hok & _); [reflexivity | reflexivity |].
  exists u. split; [exact Hkey|]. apply Hok. reflexivity.
Defined.

Lemma put_then_get_witness :
  ∃ r,
    (run (Store.s3 0%Z (λ _, lit "e"))
       (FilenameRoute.onRequestGet Sample.allow Sample.mime Sample.utc Sample.decimal
          (Sample.context (lit "report.txt") ∅))
       (run (Store.s3 0%Z (λ _, lit "e"))
          (FilenameRoute.onRequestPut Sample.allow
             {| request := Request.make (URL.make (lit "/report.txt"))
                             {[ lit "x-store-owner" := lit "ann";
                                lit "accept" := lit "*/*" ]} [104; 105];
                env := Sample.environment;
                params := {| filename := lit "report.txt" |} |}) ∅).1.2).1.1
    = Returned r
    ∧ Response.body r = Stream [104; 105]
    ∧ Headers.get (Response.headers r) (lit "x-store-owner") = Some (lit "ann").
Proof.
  destruct (put_then_get Sample.allow Sample.mime Sample.utc Sample.decimal 0%Z
              (λ _, lit "e")
              {| request := Request.make (URL.make (lit "/report.txt"))
                              {[ lit "x-store-owner" := lit "ann";
                                 lit "accept" := lit "*/*" ]} [104; 105];
                 env := Sample.environment;
                 params := {| filename := lit "report.txt" |} |}
              (Sample.context (lit "report.txt") ∅) (lit "report.txt") ∅)
    as (_ & r & Hrun & _ & Hbody & Hheaders);
    [reflexivity | reflexivity | reflexivity | | | reflexivity | reflexivity
     | reflexivity |].
  - apply (bool_decide_unpack _). vm_compute. exact I.
  - split; [reflexivity|]. split; [intros t Ht; vm_compute in Ht; discriminate|].
    repeat split; reflexivity.
  - exists r. split; [exact Hrun|]. split; [exact Hbody|].
    rewrite Hheaders; reflexivity.
Defined.

Lemma patch_then_get_witness :
  ∃ r,
    (run (Store.s3 0%Z (λ _, lit "e"))
       (FilenameRoute.onRequestGet Sample.allow Sample.mime Sample.utc Sample.decimal
          (Sample.context (lit "report.txt") ∅))
       (run (Store.s3 0%Z (λ _, lit "e"))
          (FilenameRoute.onRequestPatch Sample.allow
             (Sample.context (lit "report.txt") {[ lit "x-store-c" := lit "3" ]}))
          {[ (lit "files", lit "report.txt") :=
               {| Store.content := [104; 105];
                  Store.metadata := [(lit "x-store-a", lit "1")] |} ]}).1.2).1.1
    = Returned r
    ∧ Response.body r = Stream [104; 105]
    ∧ Headers.get (Response.headers r) (lit "x-store-c") = Some (lit "3")
    ∧ Headers.get (Response.headers r) (lit "x-store-a") = None.
Proof.
  destruct (patch_then_get Sample.allow Sample.mime Sample.utc Sample.decimal 0%Z
              (λ _, lit "e")
              (Sample.context (lit "report.txt") {[ lit "x-store-c" := lit "3" ]})
              (Sample.context (lit "report.txt") ∅) (lit "report.txt")
              {| Store.content := [104; 105];
                 Store.metadata := [(lit "x-store-a", lit "1")] |}
              {[ (lit "files", lit "report.txt") :=
                   {| Store.content := [104; 105];
                      Store.metadata := [(lit "x-store-a", lit "1")] |} ]})
    as (r & Hrun & _ & Hbody & Hheaders);
    [reflexivity | reflexivity | reflexivity | | reflexivity | | | reflexivity
     | reflexivity | reflexivity |].
  - apply (bool_decide_unpack _). vm_compute. exact I.
  - apply (bool_decide_unpack _). vm_compute. exact I.
  - split; [reflexivity|]. split; [intros t Ht; vm_compute in Ht; discriminate|].
    repeat split; reflexivity.
  - exists r. split; [exact Hrun|]. split; [exact Hbody|].
    split; rewrite Hheaders; reflexivity.
Defined.

Lemma delete_then_get_witness :
  (run (Store.s3 0%Z (λ _, lit "e"))
     (FilenameRoute.onRequestGet Sample.allow Sample.mime Sample.utc Sample.decimal
        (Sample.context (lit "report.txt") ∅))
     (delete (lit "files", lit "report.txt")
        ({[ (lit "files", lit "report.txt") :=
              {| Store.content := [104; 105]; Store.metadata := [] |} ]}
         : gmap (jsstring * jsstring) Store.StoredObject))).1.1
  = Returned FilenameRoute.notFound.
Proof.
  destruct (delete_then_get Sample.allow Sample.mime Sample.utc Sample.decimal 0%Z
              (λ _, lit "e")
              (Sample.context (lit "report.txt") ∅)
              (Sample.context (lit "report.txt") ∅) (lit "report.txt")
              {[ (lit "files", lit "report.txt") :=
                   {| Store.content := [104; 105]; Store.metadata := [] |} ]})
    as (_ & Hget & _);
    [reflexivity | reflexivity | reflexivity | reflexivity | reflexivity |].
  exact Hget.
Defined.

Lemma delete_failures_propagate_witness :
  run (scripted
         {| onGetObject := λ _, Rejected (ServiceError (lit "unused"));
            onCopyObject := λ _, Fulfilled ();
            onUpload := λ _, Fulfilled ();
            onSign := λ _ _, Rejected (ServiceError (lit "CredentialsError"));
            onFetch := λ _ _, Fulfilled {| fetchStatus := 204 |} |})
    (FilenameRoute.onRequestDelete Sample.allow (Sample.context (lit "report.txt") ∅)) tt
  = (Thrown (ServiceError (lit "CredentialsError")), tt,
     [Issued (getSignedUrl (DeleteObjectCommand.make (lit "files") (lit "report.txt"))
                3600)]).
Proof.
  destruct (delete_failures_propagate Sample.allow
              (scripted
                 {| onGetObject := λ _, Rejected (ServiceError (lit "unused"));
                    onCopyObject := λ _, Fulfilled ();
                    onUpload := λ _, Fulfilled ();
                    onSign := λ _ _, Rejected (ServiceError (lit "CredentialsError"));
                    onFetch := λ _ _, Fulfilled {| fetchStatus := 204 |} |})
              (Sample.context (lit "report.txt") ∅) (lit "report.txt") tt)
    as [Hsign _]; [reflexivity | reflexivity |].
  apply Hsign. reflexivity.
Defined.

Lemma get_native_headers_witness :
  ∃ r,
    (run (scripted (Sample.storage
                      (Fulfilled (Sample.reply
                                    (Some [(lit "content-length", lit "999")])
                                    (Some (lit "text/html")) (Some (lit "e")))) 204))
       (FilenameRoute.onRequestGet Sample.allow Sample.mime Sample.utc Sample.decimal
          (Sample.context (lit "report.txt") ∅)) tt).1.1 = Returned r
    ∧ Headers.get (Response.headers r) (lit "content-length") = Some (lit "2").
Proof.
  eexists. split; [vm_compute; reflexivity|].
  refine (proj1 (get_native_headers Sample.allow Sample.mime Sample.utc Sample.decimal
                   (scripted (Sample.storage
                                (Fulfilled (Sample.reply
                                              (Some [(lit "content-length", lit "999")])
                                              (Some (lit "text/html"))
                                              (Some (lit "e")))) 204))
                   (Sample.context (lit "report.txt") ∅) (lit "report.txt")
                   (Sample.reply (Some [(lit "content-length", lit "999")])
                      (Some (lit "text/html")) (Some (lit "e")))
                   [(lit "content-length", lit "999")] 2 0%Z _ tt tt
                   _ _ _ _ _ _ _)); reflexivity.
Defined.

Lemma get_metadata_headers_witness :
  ∃ r,
    (run (scripted (Sample.storage
                      (Fulfilled (Sample.reply (Some [(lit "x-store-owner", lit " ann ")])
                                    (Some (lit "text/html")) (Some (lit "e")))) 204))
       (FilenameRoute.onRequestGet Sample.allow Sample.mime Sample.utc Sample.decimal
          (Sample.context (lit "report.txt") ∅)) tt).1.1 = Returned r
    ∧ Headers.get (Response.headers r) (lit "X-Store-Owner") = Some (lit "ann").
Proof.
  eexists. split; [vm_compute; reflexivity|].
  rewrite (get_metadata_headers Sample.allow Sample.mime Sample.utc Sample.decimal
             (scripted (Sample.storage
                          (Fulfilled (Sample.reply
                                        (Some [(lit "x-store-owner", lit " ann ")])
                                        (Some (lit "text/html")) (Some (lit "e")))) 204))
             (Sample.context (lit "report.txt") ∅) (lit "report.txt")
             (Sample.reply (Some [(lit "x-store-owner", lit " ann ")])
                (Some (lit "text/html")) (Some (lit "e")))
             [(lit "x-store-owner", lit " ann ")] _ tt tt (lit "X-Store-Owner"));
    try reflexivity.
  - apply (bool_decide_unpack _). vm_compute. exact I.
  - apply (bool_decide_unpack _). vm_compute. exact I.
Defined.

Lemma get_missing_body_witness :
  (run (scripted (Sample.storage
                    (Fulfilled (GetObjectCommandOutput.make None (Some [])
                                  (Some (lit "text/html")) (Some 2) (Some 0%Z)
                                  (Some (lit "e")))) 204))
     (FilenameRoute.onRequestGet Sample.allow Sample.mime Sample.utc Sample.decimal
        (Sample.context (lit "report.txt") ∅)) tt).1.1
  = Thrown TypeError.
Proof.
  destruct (get_missing_body Sample.allow Sample.mime Sample.utc Sample.decimal
              (scripted (Sample.storage
                           (Fulfilled (GetObjectCommandOutput.make None (Some [])
                                         (Some (lit "text/html")) (Some 2) (Some 0%Z)
                                         (Some (lit "e")))) 204))
              (Sample.context (lit "report.txt") ∅) (lit "report.txt")
              (GetObjectCommandOutput.make None (Some []) (Some (lit "text/html"))
                 (Some 2) (Some 0%Z) (Some (lit "e")))
              [] 2 0%Z tt tt)
    as [Hthrow _];
    [reflexivity | reflexivity | reflexivity | | reflexivity | reflexivity | reflexivity
     | |].
  - apply (bool_decide_unpack _). vm_compute. exact I.
  - eexists. vm_compute. reflexivity.
  - apply Hthrow. right. reflexivity.
Defined.

Lemma private_object_looks_missing_witness :
  (run (scripted (Sample.storage (Rejected (ServiceError (lit "NoSuchKey"))) 204))
     (FilenameRoute.onRequestGet Sample.deny Sample.mime Sample.utc Sample.decimal
        (Sample.context (lit "report.txt") ∅)) tt).1.1
  = (run (scripted (Sample.storage
                      (Fulfilled (Sample.reply (Some []) (Some (lit "text/html"))
                                    (Some (lit "e")))) 204))
       (FilenameRoute.onRequestGet Sample.deny Sample.mime Sample.utc Sample.decimal
          (Sample.context (lit "report.txt") ∅)) tt).1.1.
Proof.
  apply (private_object_looks_missing Sample.deny Sample.mime Sample.utc Sample.decimal
           (scripted (Sample.storage (Rejected (ServiceError (lit "NoSuchKey"))) 204))
           (scripted (Sample.storage
                        (Fulfilled (Sample.reply (Some []) (Some (lit "text/html"))
                                      (Some (lit "e")))) 204))
           (Sample.context (lit "report.txt") ∅) (lit "report.txt")
           (Sample.reply (Some []) (Some (lit "text/html")) (Some (lit "e")))
           [] 2 0%Z (ServiceError (lit "NoSuchKey")) tt tt tt tt);
    try reflexivity.
  - apply (bool_decide_unpack _). vm_compute. exact I.
  - eexists. vm_compute. reflexivity.
  - discriminate.
Defined.

Lemma handlers_address_same_key_witness :
  calledKey <$> firstCall
    (FilenameRoute.onRequestDelete Sample.allow (Sample.context (lit "a%20b.txt") ∅))
  = Some (lit "a b.txt")
  ∧ calledKey <$> firstCall
      (FilenameRoute.onRequestGet Sample.allow Sample.mime Sample.utc Sample.decimal
         (Sample.context (lit "a%20b.txt") ∅))
    = Some (lit "a b.txt").
Proof.
  destruct (handlers_address_same_key Sample.allow Sample.mime Sample.utc Sample.decimal
              (Sample.context (lit "a%20b.txt") ∅) (lit "a b.txt"))
    as (_ & _ & Hdel & Hget); [reflexivity | reflexivity |].
  split; [exact Hdel|]. apply Hget. reflexivity.
Defined.

Lemma catch_all_plain_path_witness :
  PathRoute.onRequestGet Sample.allow Sample.mime Sample.utc Sample.decimal
    (Sample.context (lit "smartdns-aarch64") ∅)
  = FilenameRoute.onRequestGet Sample.allow Sample.mime Sample.utc Sample.decimal
      {| request := request (Sample.context (lit "smartdns-aarch64") ∅);
         env := Sample.environment;
         params := {| filename := lit "smartdns-aarch64" |} |}.
Proof.
  apply (catch_all_plain_path Sample.allow Sample.mime Sample.utc Sample.decimal
           (Sample.context (lit "smartdns-aarch64") ∅)).
  apply (bool_decide_unpack _). vm_compute. exact I.
Defined.

Lemma catch_all_key_witness :
  calledKey <$> firstCall
    (PathRoute.onRequestGet Sample.allow Sample.mime Sample.utc Sample.decimal
       (Sample.context (lit "/dir/a%2Fb") ∅))
  = Some (lit "dir/a/b").
Proof.
  rewrite (catch_all_key Sample.allow Sample.mime Sample.utc Sample.decimal
             (Sample.context (lit "/dir/a%2Fb") ∅) 2 (lit "dir/a%2Fb"));
    [reflexivity | reflexivity | discriminate].
Defined.

Lemma put_visibility_then_get_witness :
  ∃ r,
    (run (Store.s3 0%Z (λ _, lit "e"))
       (FilenameRoute.onRequestGet
          (λ _ r, bool_decide (Request.headers r !! lit "authorization"
                               = Some (lit "secret")))
          Sample.mime Sample.utc Sample.decimal
          (Sample.context (lit "report.txt") ∅))
       (run (Store.s3 0%Z (λ _, lit "e"))
          (FilenameRoute.onRequestPut
             (λ _ r, bool_decide (Request.headers r !! lit "authorization"
                                  = Some (lit "secret")))
             (Sample.context (lit "report.txt")
                {[ lit "authorization" := lit "secret";
                   lit "x-store-visibility" := lit "public" ]})) ∅).1.2).1.1
    = Returned r
    ∧ Response.status r = 200.
Proof.
  destruct (put_visibility_then_get
              (λ _ r, bool_decide (Request.headers r !! lit "authorization"
                                   = Some (lit "secret")))
              Sample.mime Sample.utc Sample.decimal 0%Z (λ _, lit "e")
              (Sample.context (lit "report.txt")
                 {[ lit "authorization" := lit "secret";
                    lit "x-store-visibility" := lit "public" ]})
              (Sample.context (lit "report.txt") ∅) (lit "report.txt") ∅)
    as [_ Hserved];
    [reflexivity | reflexivity | reflexivity | | | reflexivity | reflexivity |].
  - apply (bool_decide_unpack _). vm_compute. exact I.
  - split; [reflexivity|]. split; [intros t Ht; vm_compute in Ht; discriminate|].
    repeat split; reflexivity.
  - destruct Hserved as (r & Hrun & Hst & _); [left; reflexivity|].
    exists r. split; [exact Hrun | exact Hst].
Defined.
